(** * Team Roster Manager: the routes of [app.py] over the models of
    [models.py] and the forms of [forms.py].

    The development has four layers.
    - [Py]: the Python built-ins the routes call ([int], [float], [round],
      [sum], true division, [==] on floats).
    - [Team], [Position], [Player], [DB]: the tables of [models.py].
    - [Sqlite], [Orm], [Forms]: what the storage engine, the SQLAlchemy
      session and the WTForms classes do for the calls the routes make.
    - the route handlers [add_player], [add_team], [delete_team],
      [edit_player] and [report] of [app.py], one definition per handler,
      and the properties proved about them; then the hook [run_once] and
      the handlers [delete_player] and [remove_teams].

    A handler takes the database and the request and returns its answer
    and the database after it; an id in the URL is an argument of the
    handler. The URL converter passes the natural numbers only; the handlers
    are defined, as the Python functions are, for every integer. The
    rendering of the templates, and with it [index], which only reads, is
    outside. *)

From Stdlib Require Import ZArith List String Ascii Bool Lia SpecFloat QArith Qabs.
Import ListNotations.

Local Open Scope string_scope.
Local Open Scope list_scope.
Local Open Scope Z_scope.

(* ===================================================================== *)
(** * Python built-ins *)
(* ===================================================================== *)

Module Py.

(** A [str] is a sequence of code points; the model covers the code points
    below 256, one [ascii] each. *)
Definition str := string.

Definition chars (s : str) : list ascii := list_ascii_of_string s.

Definition code (c : ascii) : Z := Z.of_N (N_of_ascii c).

Definition is_digit (c : ascii) : bool := (48 <=? code c) && (code c <=? 57).

Definition digit_value (c : ascii) : Z := code c - 48.

(** White space skipped by [int()] and [float()] around the literal: tab,
    line feed, vertical tab, form feed, carriage return, space, and the two
    non-ASCII spaces below 256 (NEL and NBSP). *)
Definition is_space (c : ascii) : bool :=
  let n := code c in
  ((9 <=? n) && (n <=? 13)) || (n =? 32) || (n =? 133) || (n =? 160).

Fixpoint lstrip (l : list ascii) : list ascii :=
  match l with
  | c :: r => if is_space c then lstrip r else l
  | [] => []
  end.

Definition strip (l : list ascii) : list ascii := rev (lstrip (rev (lstrip l))).

Definition is_underscore (c : ascii) : bool := code c =? 95.

(** An optional sign; [true] is minus. *)
Definition split_sign (l : list ascii) : bool * list ascii :=
  match l with
  | c :: r => if code c =? 45 then (true, r)
              else if code c =? 43 then (false, r)
              else (false, l)
  | [] => (false, [])
  end.

(** Decimal digits with single underscores between them:
    digit ("_"? digit)*.  [prev] tells whether the previous character was a
    digit. *)
Fixpoint digits_value (acc : Z) (prev : bool) (l : list ascii) : option Z :=
  match l with
  | [] => if prev then Some acc else None
  | c :: r =>
      if is_digit c then digits_value (10 * acc + digit_value c) true r
      else if is_underscore c && prev then
        match r with
        | d :: _ => if is_digit d then digits_value acc false r else None
        | [] => None
        end
      else None
  end.

(** [sys.int_info.default_max_str_digits]: a literal with more digits is
    refused. *)
Definition max_str_digits : Z := 4300.

(** [int(s)] for a [str] in base 10; [None] is [ValueError]. *)
Definition int (s : str) : option Z :=
  let (neg, body) := split_sign (strip (chars s)) in
  match digits_value 0 false body with
  | Some n =>
      if Z.of_nat (List.length (filter is_digit body)) <=? max_str_digits
      then Some (if neg then - n else n)
      else None
  | None => None
  end.

(** ** Floats: IEEE 754 binary64 *)

Definition prec : Z := 53.
Definition emax : Z := 1024.

Definition float := spec_float.

Definition fadd : float -> float -> float := SFadd prec emax.
Definition fdiv : float -> float -> float := SFdiv prec emax.

(** [x == y] on floats. *)
Definition feqb : float -> float -> bool := SFeqb.

(** The binary64 nearest to the rational [n / d] with sign [s], ties to
    even. *)
Definition nearest (s : bool) (n d : positive) : float :=
  fdiv (S754_finite s n 0) (S754_finite false d 0).

(** [float(n)] for an [int]. *)
Definition float_of_int (n : Z) : float := binary_normalize prec emax n 0 false.

(** The value of a sign, a decimal mantissa and a decimal exponent. *)
Definition decimal_value (s : bool) (m : Z) (e10 : Z) : float :=
  match m with
  | Zpos p =>
      if 0 <=? e10 then nearest s (p * Z.to_pos (10 ^ e10)) 1
      else nearest s p (Z.to_pos (10 ^ (- e10)))
  | _ => S754_zero s
  end.

Fixpoint span_digits (l : list ascii) : list ascii * list ascii :=
  match l with
  | c :: r => if is_digit c then let (d, t) := span_digits r in (c :: d, t)
              else ([], l)
  | [] => ([], [])
  end.

Definition digits_to_Z (l : list ascii) : Z :=
  fold_left (fun acc c => 10 * acc + digit_value c) l 0.

Definition lower (c : ascii) : ascii :=
  if (65 <=? code c) && (code c <=? 90)
  then ascii_of_N (Z.to_N (code c + 32)) else c.

Definition lower_is (l : list ascii) (w : string) : bool :=
  if list_eq_dec ascii_dec (map lower l) (chars w) then true else false.

(** Underscores of a float literal: each must stand between two digits;
    they are then dropped. [None] when one is misplaced. *)
Fixpoint drop_underscores (prev : option ascii) (l : list ascii)
  : option (list ascii) :=
  match l with
  | [] => match prev with
          | Some p => if is_underscore p then None else Some []
          | None => Some []
          end
  | c :: r =>
      let prev_digit := match prev with Some p => is_digit p | None => false end in
      let prev_us := match prev with Some p => is_underscore p | None => false end in
      if is_underscore c then
        if prev_digit then drop_underscores (Some c) r else None
      else if prev_us && negb (is_digit c) then None
      else match drop_underscores (Some c) r with
           | Some t => Some (c :: t)
           | None => None
           end
  end.

(** The exponent part: empty, or e/E, an optional sign and at least one
    digit. *)
Definition exponent (l : list ascii) : option Z :=
  match l with
  | [] => Some 0
  | c :: r =>
      if code (lower c) =? 101 then
        let (neg, ds) := split_sign r in
        match span_digits ds with
        | (d :: ds', []) =>
            let e := digits_to_Z (d :: ds') in Some (if neg then - e else e)
        | _ => None
        end
      else None
  end.

(** digits [. digits] [exponent], with at least one digit before the
    exponent. *)
Definition decimal (s : bool) (l : list ascii) : option float :=
  let (ip, r1) := span_digits l in
  let (fp, r2) :=
    match r1 with
    | c :: r => if code c =? 46 then span_digits r else ([], r1)
    | [] => ([], [])
    end in
  match ip ++ fp, exponent r2 with
  | _ :: _, Some e =>
      Some (decimal_value s (digits_to_Z (ip ++ fp)) (e - Z.of_nat (List.length fp)))
  | _, _ => None
  end.

(** [float(s)] for a [str]; [None] is [ValueError]. *)
Definition float_of_str (s : str) : option float :=
  match drop_underscores None (strip (chars s)) with
  | None => None
  | Some l =>
      let (neg, body) := split_sign l in
      if lower_is body "inf" || lower_is body "infinity" then Some (S754_infinity neg)
      else if lower_is body "nan" then Some S754_nan
      else decimal neg body
  end.

(** Division of [n] by [d > 0] rounded to the nearest integer, ties to
    even. *)
Definition div_half_even (n d : Z) : Z :=
  let q := n / d in
  let r := n mod d in
  match 2 * r ?= d with
  | Lt => q
  | Gt => q + 1
  | Eq => if Z.even q then q else q + 1
  end.

(** [round(x, 2)]: the exact binary value of [x] is rounded to two decimals,
    ties to even, and the decimal result is converted back to the nearest
    float. Infinities and NaN round to themselves. *)
Definition round2 (x : float) : float :=
  match x with
  | S754_finite s m e =>
      let k := if 0 <=? e then 100 * Zpos m * 2 ^ e
               else div_half_even (100 * Zpos m) (2 ^ (- e)) in
      match k with
      | Zpos p => nearest s p 100
      | _ => S754_zero s
      end
  | _ => x
  end.

(** [a / b] on two [int]s with [b <> 0]: the correctly rounded quotient;
    [None] is [OverflowError]. *)
Definition truediv_int (a b : Z) : option float :=
  let s := xorb (a <? 0) (b <? 0) in
  match Z.abs a, Z.abs b with
  | Zpos n, Zpos d =>
      match nearest s n d with
      | S754_infinity _ => None
      | q => Some q
      end
  | _, _ => Some (S754_zero s)
  end.

(** [sum(xs)] for a list of [int]s. *)
Definition sum_ints (xs : list Z) : Z := fold_left Z.add xs 0.

(** [sum(xs)] for a list of floats: the items are added one by one, left to
    right, to the start value 0 (plain binary64 additions, as CPython does
    up to 3.11; later releases carry a compensation term along). *)
Definition sum_floats (xs : list float) : float :=
  fold_left fadd xs (S754_zero false).

(** A number held by a Python variable: [0] and [0.0] are different
    objects. *)
Inductive num :=
| Int (n : Z)
| Float (x : float).

End Py.

(* ===================================================================== *)
(** * The tables of [models.py] *)
(* ===================================================================== *)

Module Team.
Record t := { TeamID : Z; TeamName : Py.str }.
End Team.

Module Position.
Record t := { PositionID : Z; PositionName : Py.str }.
End Position.

(** [TeamID] and [PositionID] are the two nullable columns; [None] is SQL
    NULL. *)
Module Player.
Record t := {
  PlayerID : Z;
  Name : Py.str;
  Age : Z;
  Height : Py.float;
  TeamID : option Z;
  PositionID : option Z;
  Version : Z
}.
End Player.

(** The database: one list of rows per table, in rowid order. The engine
    is SQLite as [app.py] configures it, which does not enforce the two
    FOREIGN KEY clauses; what it accepts as a value is in [Sqlite]. *)
Record DB := {
  team : list Team.t;
  position : list Position.t;
  player : list Player.t
}.

Definition set_team (db : DB) (ts : list Team.t) : DB :=
  {| team := ts; position := position db; player := player db |}.

Definition set_player (db : DB) (ps : list Player.t) : DB :=
  {| team := team db; position := position db; player := ps |}.

Definition set_position (db : DB) (ps : list Position.t) : DB :=
  {| team := team db; position := ps; player := player db |}.

(** The constraints of the schema. *)
Definition pk_unique (db : DB) : Prop :=
  NoDup (map Player.PlayerID (player db)).

Definition team_exists (db : DB) (id : Z) : Prop :=
  In id (map Team.TeamID (team db)).

Definition position_exists (db : DB) (id : Z) : Prop :=
  In id (map Position.PositionID (position db)).

(** [db.ForeignKey("team.TeamID")] and [db.ForeignKey("position.PositionID")]
    as a property of the rows: a reference that is set names an existing
    row. *)
Definition fk_team (db : DB) : Prop :=
  forall p id, In p (player db) -> Player.TeamID p = Some id -> team_exists db id.

Definition fk_position (db : DB) : Prop :=
  forall p id, In p (player db) -> Player.PositionID p = Some id ->
               position_exists db id.

(* ===================================================================== *)
(** * Exceptions and requests *)
(* ===================================================================== *)

Inductive exn :=
| BadRequestKeyError (key : Py.str)
| ValueError
| OverflowError
| StaleDataError
| IntegrityError.

Inductive result (A : Type) :=
| Ok (a : A)
| Raise (e : exn).

Arguments Ok {A} a.
Arguments Raise {A} e.

Definition bind {A B : Type} (c : result A) (k : A -> result B) : result B :=
  match c with
  | Ok a => k a
  | Raise e => Raise e
  end.

Notation "x <- c ;; k" := (bind c (fun x => k))
  (at level 61, c at next level, right associativity).

(** A built-in that raises [ValueError] on a bad literal. *)
Definition or_ValueError {A : Type} (o : option A) : result A :=
  match o with
  | Some a => Ok a
  | None => Raise ValueError
  end.

Inductive http_method := GET | POST.

(** What a handler reads of the request: the method, the submitted form
    fields in order, and whether the CSRF token Flask-WTF checks is good. *)
Record request := {
  method : http_method;
  form : list (Py.str * Py.str);
  csrf_valid : bool
}.

(** [request.form.get(key)]: the first value sent under [key], or [None]. *)
Fixpoint form_get (f : list (Py.str * Py.str)) (key : Py.str) : option Py.str :=
  match f with
  | (k, v) :: r => if String.eqb k key then Some v else form_get r key
  | [] => None
  end.

(** [request.form[key]]. *)
Definition form_getitem (f : list (Py.str * Py.str)) (key : Py.str)
  : result Py.str :=
  match form_get f key with
  | Some v => Ok v
  | None => Raise (BadRequestKeyError key)
  end.

Inductive endpoint :=
| index
| remove_teams_page
| edit_player_page (player_id : Z).

(** What a handler answers. [Flash_redirect e _] is the [except] branch of
    [edit_player]: the text of [e] is flashed, then the browser is
    redirected. [Unhandled e] is an exception no handler catches. *)
Inductive response :=
| Redirect (target : endpoint)
| Flash_redirect (e : exn) (target : endpoint)
| Render (template : Py.str)
| Abort404
| Unhandled (e : exn).

(* ===================================================================== *)
(** * The storage engine *)
(* ===================================================================== *)

Module Sqlite.

(** The integers the engine holds: 64 bits, signed. *)
Definition int64 (n : Z) : bool := (- 2 ^ 63 <=? n) && (n <? 2 ^ 63).

(** Binding Python [int]s as parameters of a statement: [OverflowError]
    for one outside the 64 bits, before the statement runs. *)
Fixpoint bind_ints (ns : list Z) : result unit :=
  match ns with
  | [] => Ok tt
  | n :: r => if int64 n then bind_ints r else Raise OverflowError
  end.

(** The integer parameter a nullable value gives; [None] is bound as
    NULL. *)
Definition some_int (o : option Z) : list Z :=
  match o with
  | Some n => [n]
  | None => []
  end.

(** A float bound to the Float column: NaN is bound as NULL, which the NOT
    NULL column refuses. *)
Definition null_real (x : Py.float) : bool :=
  match x with
  | S754_nan => true
  | _ => false
  end.

(** The float read back from the Float column: the sign of a zero is not
    kept. *)
Definition real (x : Py.float) : Py.float :=
  match x with
  | S754_zero _ => S754_zero false
  | _ => x
  end.

End Sqlite.

(* ===================================================================== *)
(** * The SQLAlchemy session *)
(* ===================================================================== *)

Module Orm.

(** The mapper's default [version_id_generator],
    [lambda version: (version or 0) + 1]: an INSERT passes [None], an UPDATE
    the version that was loaded. *)
Definition version_id_generator (version : option Z) : Z :=
  match version with
  | Some v => v + 1
  | None => 0 + 1
  end.

(** The rowid SQLite gives a row inserted without one. *)
Definition next_rowid (ids : list Z) : Z :=
  match ids with
  | [] => 1
  | i :: r => fold_left Z.max r i + 1
  end.

(** The row the player table holds under a primary key, if there is one: a
    look at the rows, not a call of the handlers, which go through
    [get_or_404] below. *)
Definition get (db : DB) (player_id : Z) : option Player.t :=
  find (fun p => Player.PlayerID p =? player_id) (player db).

(** [Player.query.get_or_404(player_id)]: the id is bound and the row
    selected; [Ok None] is the 404. The id of a stored row is an integer
    the engine holds, so only an id that names no row can fail to bind. *)
Definition get_or_404 (db : DB) (player_id : Z) : result (option Player.t) :=
  match get db player_id with
  | Some p => Ok (Some p)
  | None =>
      if Sqlite.int64 player_id then Ok None else Raise OverflowError
  end.

(** [==] on a nullable integer attribute. *)
Definition opt_eqb (a b : option Z) : bool :=
  match a, b with
  | Some x, Some y => x =? y
  | None, None => true
  | _, _ => false
  end.

(** The attributes of [new] that differ, by Python's [==], from the values
    [loaded] was read with: only these go into the UPDATE. *)
Definition Name_changed (loaded new : Player.t) : bool :=
  negb (String.eqb (Player.Name new) (Player.Name loaded)).
Definition Age_changed (loaded new : Player.t) : bool :=
  negb (Player.Age new =? Player.Age loaded).
Definition Height_changed (loaded new : Player.t) : bool :=
  negb (Py.feqb (Player.Height new) (Player.Height loaded)).
Definition TeamID_changed (loaded new : Player.t) : bool :=
  negb (opt_eqb (Player.TeamID new) (Player.TeamID loaded)).
Definition PositionID_changed (loaded new : Player.t) : bool :=
  negb (opt_eqb (Player.PositionID new) (Player.PositionID loaded)).

Definition modified (loaded new : Player.t) : bool :=
  Name_changed loaded new || Age_changed loaded new ||
  Height_changed loaded new || TeamID_changed loaded new ||
  PositionID_changed loaded new.

(** The WHERE clause of the versioned UPDATE:
    [player.PlayerID = ? AND player.Version = ?]. *)
Definition where_pk_version (loaded r : Player.t) : bool :=
  (Player.PlayerID r =? Player.PlayerID loaded) &&
  (Player.Version r =? Player.Version loaded).

(** Its SET clause applied to a stored row. *)
Definition set_columns (loaded new r : Player.t) : Player.t :=
  {| Player.PlayerID := Player.PlayerID r;
     Player.Name := if Name_changed loaded new then Player.Name new
                    else Player.Name r;
     Player.Age := if Age_changed loaded new then Player.Age new
                   else Player.Age r;
     Player.Height := if Height_changed loaded new
                      then Sqlite.real (Player.Height new)
                      else Player.Height r;
     Player.TeamID := if TeamID_changed loaded new then Player.TeamID new
                      else Player.TeamID r;
     Player.PositionID := if PositionID_changed loaded new
                          then Player.PositionID new else Player.PositionID r;
     Player.Version := version_id_generator (Some (Player.Version loaded)) |}.

(** The UPDATE on one stored row: rewritten where the WHERE clause holds. *)
Definition update_row (loaded new r : Player.t) : Player.t :=
  if where_pk_version loaded r then set_columns loaded new r else r.

(** The number of rows the UPDATE matched. *)
Definition rowcount (loaded : Player.t) (rows : list Player.t) : nat :=
  List.length (filter (where_pk_version loaded) rows).

(** The integers the UPDATE binds that the request supplied or computed:
    the changed integer attributes and the new version. The primary key and
    the loaded version were read from the stored row. *)
Definition update_ints (loaded new : Player.t) : list Z :=
  (if Age_changed loaded new then [Player.Age new] else []) ++
  (if TeamID_changed loaded new then Sqlite.some_int (Player.TeamID new)
   else []) ++
  (if PositionID_changed loaded new
   then Sqlite.some_int (Player.PositionID new) else []) ++
  [version_id_generator (Some (Player.Version loaded))].

(** [db.session.commit()] with one object whose attributes were assigned:
    without a net change no statement is sent. Otherwise the versioned
    UPDATE is: binding its parameters may fail; when it matches no row
    [StaleDataError] is raised; a matched row refuses a NULL height with
    [IntegrityError]; and [StaleDataError] is raised as well unless exactly
    one row was matched. *)
Definition commit_update (loaded new : Player.t) (db : DB) : result DB :=
  if modified loaded new then
    u <- Sqlite.bind_ints (update_ints loaded new) ;;
    match rowcount loaded (player db) with
    | O => Raise StaleDataError
    | S n =>
        if Height_changed loaded new && Sqlite.null_real (Player.Height new)
        then Raise IntegrityError
        else if Nat.eqb n 0 then
          Ok (set_player db (map (update_row loaded new) (player db)))
        else Raise StaleDataError
    end
  else Ok db.

(** [db.session.add(Player(...)); db.session.commit()]: the INSERT binds
    the integers, and the NOT NULL column refuses a NULL height. *)
Definition insert_player (db : DB) (Name : Py.str) (Age : Z) (Height : Py.float)
    (TeamID PositionID : option Z) : result DB :=
  u <- Sqlite.bind_ints
         (Age :: Sqlite.some_int TeamID ++ Sqlite.some_int PositionID) ;;
  if Sqlite.null_real Height then Raise IntegrityError
  else
    Ok (set_player db
          (player db ++
           [{| Player.PlayerID := next_rowid (map Player.PlayerID (player db));
               Player.Name := Name;
               Player.Age := Age;
               Player.Height := Sqlite.real Height;
               Player.TeamID := TeamID;
               Player.PositionID := PositionID;
               Player.Version := version_id_generator None |}])).

(** [db.session.add(Team(TeamName=...)); db.session.commit()]: the UNIQUE
    index on [TeamName] rejects a name already present. *)
Definition insert_team (db : DB) (TeamName : Py.str) : result DB :=
  if existsb (fun t => String.eqb (Team.TeamName t) TeamName) (team db)
  then Raise IntegrityError
  else Ok (set_team db
             (team db ++
              [{| Team.TeamID := next_rowid (map Team.TeamID (team db));
                  Team.TeamName := TeamName |}])).

(** [DELETE FROM player WHERE TeamID = :team_id]; NULL equals nothing. *)
Definition delete_player_where_TeamID (db : DB) (team_id : Z) : DB :=
  set_player db
    (filter (fun p => negb (opt_eqb (Player.TeamID p) (Some team_id)))
            (player db)).

(** [DELETE FROM team WHERE TeamID = :team_id]. *)
Definition delete_team_where_TeamID (db : DB) (team_id : Z) : DB :=
  set_team db (filter (fun t => negb (Team.TeamID t =? team_id)) (team db)).

(** [db.session.add(Position(PositionName=...))], committed. *)
Definition insert_position (db : DB) (PositionName : Py.str) : DB :=
  set_position db
    (position db ++
     [{| Position.PositionID := next_rowid (map Position.PositionID (position db));
         Position.PositionName := PositionName |}]).

(** [db.session.delete(player); db.session.commit()]: the mapper is
    versioned, so the statement is
    [DELETE FROM player WHERE PlayerID = ? AND Version = ?] and
    [StaleDataError] is raised unless it matched exactly one row. *)
Definition commit_delete (loaded : Player.t) (db : DB) : result DB :=
  if Nat.eqb (rowcount loaded (player db)) 1 then
    Ok (set_player db
          (filter (fun r => negb (where_pk_version loaded r)) (player db)))
  else Raise StaleDataError.

End Orm.

(* ===================================================================== *)
(** * The forms of [forms.py] *)
(* ===================================================================== *)

Module Forms.

(** [InputRequired()]: the field was sent and its first value is not
    empty. *)
Definition InputRequired (raw : option Py.str) : bool :=
  match raw with
  | Some v => negb (String.eqb v "")
  | None => false
  end.

(** [StringField(validators=[InputRequired()])]: the value as sent. *)
Definition StringField (raw : option Py.str) : option Py.str :=
  if InputRequired raw then raw else None.

(** [IntegerField(validators=[InputRequired()])]: [int()] of the value. *)
Definition IntegerField (raw : option Py.str) : option Z :=
  match raw with
  | Some v => if InputRequired raw then Py.int v else None
  | None => None
  end.

(** [FloatField(validators=[InputRequired()])]: [float()] of the value. *)
Definition FloatField (raw : option Py.str) : option Py.float :=
  match raw with
  | Some v => if InputRequired raw then Py.float_of_str v else None
  | None => None
  end.

(** [SelectField(coerce=int)] with its [choices]: the value is coerced with
    [int()] and must be the value of one of the choices. *)
Definition SelectField (choices : list (Z * Py.str)) (raw : option Py.str)
  : option Z :=
  match raw with
  | Some v =>
      match Py.int v with
      | Some n => if existsb (fun c => fst c =? n) choices then Some n else None
      | None => None
      end
  | None => None
  end.

(** The [data] of the fields of a [PlayerForm] that validated. *)
Record PlayerForm := {
  name : Py.str;
  age : Z;
  height : Py.float;
  team : Z;
  position : Z
}.

(** [form.validate_on_submit()] for a [PlayerForm] whose [team] and
    [position] choices were set: the request is a POST, the CSRF token is
    good and every field validates. *)
Definition PlayerForm_validate_on_submit (req : request)
    (team_choices position_choices : list (Z * Py.str)) : option PlayerForm :=
  match method req with
  | GET => None
  | POST =>
      if csrf_valid req then
        match StringField (form_get (form req) "name"),
              IntegerField (form_get (form req) "age"),
              FloatField (form_get (form req) "height"),
              SelectField team_choices (form_get (form req) "team"),
              SelectField position_choices (form_get (form req) "position")
        with
        | Some n, Some a, Some h, Some t, Some p =>
            Some {| name := n; age := a; height := h; team := t; position := p |}
        | _, _, _, _, _ => None
        end
      else None
  end.

(** [form.validate_on_submit()] for a [TeamForm]; the result is
    [form.team_name.data]. *)
Definition TeamForm_validate_on_submit (req : request) : option Py.str :=
  match method req with
  | GET => None
  | POST =>
      if csrf_valid req then StringField (form_get (form req) "team_name")
      else None
  end.

End Forms.

(* ===================================================================== *)
(** * The route handlers of [app.py] *)
(* ===================================================================== *)

(** [add_player]. The exception of a failed commit is not caught. *)
Definition add_player (db : DB) (req : request) : response * DB :=
  let team_choices :=
    map (fun t => (Team.TeamID t, Team.TeamName t)) (team db) in
  let position_choices :=
    map (fun p => (Position.PositionID p, Position.PositionName p))
        (position db) in
  match Forms.PlayerForm_validate_on_submit req team_choices position_choices with
  | Some f =>
      match Orm.insert_player db (Forms.name f) (Forms.age f) (Forms.height f)
              (Some (Forms.team f)) (Some (Forms.position f)) with
      | Ok db' => (Redirect index, db')
      | Raise e => (Unhandled e, db)
      end
  | None => (Render "add_player.html", db)
  end.

(** [add_team]. The exception of a failed commit is not caught. *)
Definition add_team (db : DB) (req : request) : response * DB :=
  match Forms.TeamForm_validate_on_submit req with
  | Some team_name =>
      match Orm.insert_team db team_name with
      | Ok db' => (Redirect index, db')
      | Raise e => (Unhandled e, db)
      end
  | None => (Render "add_team.html", db)
  end.

(** [delete_team]: the two DELETE statements, which bind [team_id], then
    the commit. No exception is caught. *)
Definition delete_team (db : DB) (team_id : Z) : response * DB :=
  match Sqlite.bind_ints [team_id] with
  | Ok _ =>
      (Redirect remove_teams_page,
       Orm.delete_team_where_TeamID (Orm.delete_player_where_TeamID db team_id)
         team_id)
  | Raise e => (Unhandled e, db)
  end.

(** The assignments of the [try] block of [edit_player], in order: the
    object the commit will write, or the first exception. *)
Definition edit_player_assign (player : Player.t) (f : list (Py.str * Py.str))
  : result Player.t :=
  name <- form_getitem f "name" ;;
  age <- (v <- form_getitem f "age" ;; or_ValueError (Py.int v)) ;;
  height <- (v <- form_getitem f "height" ;; or_ValueError (Py.float_of_str v)) ;;
  team <- (v <- form_getitem f "team" ;; or_ValueError (Py.int v)) ;;
  position <- (v <- form_getitem f "position" ;; or_ValueError (Py.int v)) ;;
  Ok {| Player.PlayerID := Player.PlayerID player;
        Player.Name := name;
        Player.Age := age;
        Player.Height := height;
        Player.TeamID := Some team;
        Player.PositionID := Some position;
        Player.Version := Player.Version player |}.

(** The POST branch of [edit_player], lines 138 to 150. [player] is the
    object [get_or_404] returned at the start of the request and [db] the
    database the commit runs against; they are two arguments so that a
    commit by another request between the two can be expressed. *)
Definition edit_player_POST (player_id : Z) (player : Player.t)
    (f : list (Py.str * Py.str)) (db : DB) : response * DB :=
  match (new <- edit_player_assign player f ;; Orm.commit_update player new db) with
  | Ok db' => (Redirect index, db')
  | Raise e => (Flash_redirect e (edit_player_page player_id), db)
  end.

(** [edit_player], one request run without interference. *)
Definition edit_player (db : DB) (player_id : Z) (req : request)
  : response * DB :=
  match Orm.get_or_404 db player_id with
  | Raise e => (Unhandled e, db)
  | Ok None => (Abort404, db)
  | Ok (Some player) =>
      match method req with
      | POST => edit_player_POST player_id player (form req) db
      | GET => (Render "edit_player.html", db)
      end
  end.

(** ** The report *)

(** The two conditions [report] may append to [filters]. *)
Inductive filter_clause :=
| TeamID_eq_team_id
| PositionID_eq_position_id.

Record params := { team_id : option Z; position_id : option Z }.

(** The query under construction: the list [filters] and the dict
    [params]. *)
Record query := { filters : list filter_clause; bound : params }.

(** One condition on one row; a comparison with NULL, or with a parameter
    that was not bound, is not true. *)
Definition holds (pr : params) (p : Player.t) (c : filter_clause) : bool :=
  match c with
  | TeamID_eq_team_id =>
      match Player.TeamID p, team_id pr with
      | Some a, Some b => a =? b
      | _, _ => false
      end
  | PositionID_eq_position_id =>
      match Player.PositionID p, position_id pr with
      | Some a, Some b => a =? b
      | _, _ => false
      end
  end.

(** [SELECT * FROM player], with [WHERE] and the conditions joined by
    [AND] when there are any. *)
Definition select_player (db : DB) (q : query) : list Player.t :=
  filter (fun p => forallb (holds (bound q) p) (filters q)) (player db).

(** [selected and selected != "all"]: the token to convert, if any. *)
Definition specific (selected : option Py.str) : option Py.str :=
  match selected with
  | Some s =>
      if negb (String.eqb s "") && negb (String.eqb s "all") then Some s
      else None
  | None => None
  end.

Record stats := { total : Z; avg_age : Py.num; avg_height : Py.num }.

(** The context [report.html] is rendered with; [players] is [None] and
    [page_stats] the empty dict ([None]) on a GET. *)
Record report_page := {
  players : option (list Player.t);
  teams : list Team.t;
  positions : list Position.t;
  page_stats : option stats
}.

(** The statistics of lines 188 to 197. *)
Definition report_stats (rows : list Player.t) : result stats :=
  match rows with
  | _ :: _ =>
      let ages := map Player.Age rows in
      let heights := map Player.Height rows in
      match Py.truediv_int (Py.sum_ints ages) (Z.of_nat (List.length ages)) with
      | Some mean_age =>
          Ok {| total := Z.of_nat (List.length rows);
                avg_age := Py.Float (Py.round2 mean_age);
                avg_height :=
                  Py.Float (Py.round2
                    (Py.fdiv (Py.sum_floats heights)
                             (Py.float_of_int (Z.of_nat (List.length heights))))) |}
      | None => Raise OverflowError
      end
  | [] => Ok {| total := 0; avg_age := Py.Int 0; avg_height := Py.Int 0 |}
  end.

(** [report]. No exception is caught; the database is only read. *)
Definition report (db : DB) (req : request) : result report_page :=
  match method req with
  | GET =>
      Ok {| players := None; teams := team db; positions := position db;
            page_stats := None |}
  | POST =>
      let selected_team := form_get (form req) "team" in
      let selected_position := form_get (form req) "position" in
      let q0 := {| filters := [];
                   bound := {| team_id := None; position_id := None |} |} in
      q1 <- match specific selected_team with
            | Some s =>
                n <- or_ValueError (Py.int s) ;;
                Ok {| filters := filters q0 ++ [TeamID_eq_team_id];
                      bound := {| team_id := Some n;
                                  position_id := position_id (bound q0) |} |}
            | None => Ok q0
            end ;;
      q2 <- match specific selected_position with
            | Some s =>
                n <- or_ValueError (Py.int s) ;;
                Ok {| filters := filters q1 ++ [PositionID_eq_position_id];
                      bound := {| team_id := team_id (bound q1);
                                  position_id := Some n |} |}
            | None => Ok q1
            end ;;
      u <- Sqlite.bind_ints
             (Sqlite.some_int (team_id (bound q2)) ++
              Sqlite.some_int (position_id (bound q2))) ;;
      let rows := select_player db q2 in
      st <- report_stats rows ;;
      Ok {| players := Some rows; teams := team db; positions := position db;
            page_stats := Some st |}
  end.

(** ** The hook and the remaining handlers *)

(** The names [run_once] seeds, in the order of [add_all]. *)
Definition default_positions : list Py.str :=
  ["Forward"; "Midfielder"; "Defender"; "Goalkeeper"].

(** [run_once], the [before_request] hook: when [Position.query.first()]
    finds no row the four default positions are inserted. The tables
    exist, so [create_all] does nothing. *)
Definition run_once (db : DB) : DB :=
  match position db with
  | [] => fold_left Orm.insert_position default_positions db
  | _ :: _ => db
  end.

(** [delete_player]. No exception is caught. *)
Definition delete_player (db : DB) (player_id : Z) : response * DB :=
  match Orm.get_or_404 db player_id with
  | Raise e => (Unhandled e, db)
  | Ok None => (Abort404, db)
  | Ok (Some player) =>
      match Orm.commit_delete player db with
      | Ok db' => (Redirect index, db')
      | Raise e => (Unhandled e, db)
      end
  end.

(** [request.method == "POST" and request.form.get("action") == "delete_all"]. *)
Definition is_delete_all (req : request) : bool :=
  match method req, form_get (form req) "action" with
  | POST, Some a => String.eqb a "delete_all"
  | _, _ => false
  end.

(** [remove_teams]: [Player.query.delete()] and [Team.query.delete()] empty
    the two tables. *)
Definition remove_teams (db : DB) (req : request) : response * DB :=
  if is_delete_all req then
    (Redirect remove_teams_page, set_team (set_player db []) [])
  else (Render "remove_teams.html", db).

(* ===================================================================== *)
(** * The contracts the handlers are compared with *)
(* ===================================================================== *)

(** What a submitted filter value stands for. *)
Inductive filter_input :=
| Match_all
| Specific_id (id : Z).

(** How [report] reads a submitted value: an absent value, the empty value
    and the word "all" stand for every row; any other token stands for the
    id [int()] converts it to. *)
Definition reads_as (selected : option Py.str) (fi : filter_input) : Prop :=
  match fi with
  | Match_all => specific selected = None
  | Specific_id id => exists s, specific selected = Some s /\ Py.int s = Some id
  end.

(** The result set in the words of the report contract: start from all the
    players; when the team filter is specific keep the players with that
    team id; when the position filter is specific keep, of these, the players
    with that position id. *)
Definition restrict_team (tf : filter_input) (ps : list Player.t)
  : list Player.t :=
  match tf with
  | Match_all => ps
  | Specific_id id =>
      filter (fun p => Orm.opt_eqb (Player.TeamID p) (Some id)) ps
  end.

Definition restrict_position (pf : filter_input) (ps : list Player.t)
  : list Player.t :=
  match pf with
  | Match_all => ps
  | Specific_id id =>
      filter (fun p => Orm.opt_eqb (Player.PositionID p) (Some id)) ps
  end.

Definition result_set (db : DB) (tf pf : filter_input) : list Player.t :=
  restrict_position pf (restrict_team tf (player db)).

(** The arithmetic means of the rows of a result set, as Python computes
    them: the sum of the ages, an [int], divided by the count gives the
    nearest float ([None] when it is beyond the floats); the heights are
    floats, summed and divided as floats. *)
Definition mean_age (rows : list Player.t) : option Py.float :=
  Py.truediv_int (Py.sum_ints (map Player.Age rows))
                 (Z.of_nat (List.length rows)).

Definition mean_height (rows : list Player.t) : Py.float :=
  Py.fdiv (Py.sum_floats (map Player.Height rows))
          (Py.float_of_int (Z.of_nat (List.length rows))).

(** A token [report] hands to [int()] and [int()] rejects. *)
Definition unrecognised (selected : option Py.str) : Prop :=
  exists s, specific selected = Some s /\ Py.int s = None.

Definition no_stats : stats :=
  {| total := 0; avg_age := Py.Int 0; avg_height := Py.Int 0 |}.

(** The five fields [edit_player] reads. *)
Definition edit_fields : list Py.str :=
  ["name"; "age"; "height"; "team"; "position"].

(** The primary key and the UNIQUE index of the team table. *)
Definition team_pk_unique (db : DB) : Prop :=
  NoDup (map Team.TeamID (team db)).

Definition team_names_unique (db : DB) : Prop :=
  NoDup (map Team.TeamName (team db)).

(** The request that asks [remove_teams] for the bulk delete. *)
Definition delete_all_request : request :=
  {| method := POST; form := [("action", "delete_all")]; csrf_valid := true |}.

(** A filter the engine can bind: match all, or an id within the 64
    bits. *)
Definition bindable (fi : filter_input) : Prop :=
  match fi with
  | Match_all => True
  | Specific_id id => Sqlite.int64 id = true
  end.

(** What [edit_player] asks of the value of each field: nothing of the
    name, a literal [float()] accepts for the height, one [int()] accepts
    for the others. *)
Definition convertible (key v : Py.str) : Prop :=
  if String.eqb key "name" then True
  else if String.eqb key "height" then Py.float_of_str v <> None
  else Py.int v <> None.

(** Rounding to two decimals in exact arithmetic. [magnitude x] is the
    rational a finite float stands for, without its sign; [nearest_even q k]
    says that [k] is the integer nearest to [q], the even one of two equally
    near; [hundredths s k] is the float nearest to [k / 100] with sign [s];
    [exact_mean] is the mean of rationals. *)
Definition magnitude (x : Py.float) : Q :=
  match x with
  | S754_finite _ m e =>
      if 0 <=? e then inject_Z (Zpos m * 2 ^ e)
      else Zpos m # Z.to_pos (2 ^ (- e))
  | _ => 0%Q
  end.

Definition nearest_even (q : Q) (k : Z) : Prop :=
  (Qabs (q - inject_Z k) < 1 # 2)%Q \/
  ((Qabs (q - inject_Z k) == 1 # 2)%Q /\ Z.even k = true).

Definition hundredths (s : bool) (k : Z) : Py.float :=
  match k with
  | Zpos p => Py.nearest s p 100
  | _ => S754_zero s
  end.

Definition exact_mean (xs : list Q) : Q :=
  (fold_right Qplus 0%Q xs / inject_Z (Z.of_nat (List.length xs)))%Q.

(** [y] is the float [x] rounded to two decimals: the float nearest to the
    hundredth nearest to the exact value of [x], ties to the even hundredth;
    an infinity and NaN are left as they are. *)
Definition two_decimals (x y : Py.float) : Prop :=
  match x with
  | S754_finite s _ _ =>
      exists k, nearest_even (100 * magnitude x) k /\ y = hundredths s k
  | _ => y = x
  end.

(* ===================================================================== *)
(** * A small roster *)
(* ===================================================================== *)

(** Team A, the positions Forward and Midfielder, and the players n1 and n2
    of team A, all created through the handlers. *)
Module Roster.

Definition submit (f : list (Py.str * Py.str)) : request :=
  {| method := POST; form := f; csrf_valid := true |}.

Definition empty : DB :=
  {| team := [];
     position :=
       [{| Position.PositionID := 1; Position.PositionName := "Forward" |};
        {| Position.PositionID := 2; Position.PositionName := "Midfielder" |}];
     player := [] |}.

Definition with_team : DB :=
  snd (add_team empty (submit [("team_name", "A")])).

Definition n1_form : list (Py.str * Py.str) :=
  [("name", "n1"); ("age", "20"); ("height", "70.0"); ("team", "1");
   ("position", "1")].

Definition n2_form : list (Py.str * Py.str) :=
  [("name", "n2"); ("age", "22"); ("height", "68.0"); ("team", "1");
   ("position", "2")].

Definition with_n1 : DB := snd (add_player with_team (submit n1_form)).

Definition db : DB := snd (add_player with_n1 (submit n2_form)).

Definition n1 : Player.t :=
  {| Player.PlayerID := 1; Player.Name := "n1"; Player.Age := 20;
     Player.Height := Py.float_of_int 70; Player.TeamID := Some 1;
     Player.PositionID := Some 1; Player.Version := 1 |}.

Definition n2 : Player.t :=
  {| Player.PlayerID := 2; Player.Name := "n2"; Player.Age := 22;
     Player.Height := Py.float_of_int 68; Player.TeamID := Some 1;
     Player.PositionID := Some 2; Player.Version := 1 |}.

(** Two players of team A whose heights are 0.25 and 2^-60. *)
Definition quarter_form : list (Py.str * Py.str) :=
  [("name", "q1"); ("age", "20"); ("height", "0.25"); ("team", "1");
   ("position", "1")].

Definition tiny_form : list (Py.str * Py.str) :=
  [("name", "q2"); ("age", "21"); ("height", "8.673617379884035e-19");
   ("team", "1"); ("position", "1")].

Definition thin : DB :=
  snd (add_player (snd (add_player with_team (submit quarter_form)))
         (submit tiny_form)).

(** A player sent with the height -0.0. *)
Definition flat_form : list (Py.str * Py.str) :=
  [("name", "f1"); ("age", "20"); ("height", "-0.0"); ("team", "1");
   ("position", "1")].

(** The form that moves n1 to team 99, which does not exist. *)
Definition team99_form : list (Py.str * Py.str) :=
  [("name", "n1"); ("age", "20"); ("height", "70.0"); ("team", "99");
   ("position", "1")].

End Roster.

(** The form that changes the age of n1 to 21, and the roster after it was
    submitted once. *)
Definition n1_older : list (Py.str * Py.str) :=
  [("name", "n1"); ("age", "21"); ("height", "70.0"); ("team", "1");
   ("position", "1")].

Definition roster_n1_older : DB :=
  snd (edit_player Roster.db 1 (Roster.submit n1_older)).

(** The roster after n1 was moved to team 99. *)
Definition roster_team99 : DB :=
  snd (edit_player Roster.db 1 (Roster.submit Roster.team99_form)).

(* ===================================================================== *)
(** * Properties *)
(* ===================================================================== *)

(** ** Lists and rows *)

Lemma filter_all {A : Type} (f : A -> bool) (l : list A) :
  (forall x, In x l -> f x = true) -> filter f l = l.
Proof.
  induction l as [|a l IH]; intros H; simpl; [reflexivity|].
  rewrite (H a (or_introl eq_refl)). f_equal. apply IH.
  intros x Hx. apply H. right. exact Hx.
Qed.

Lemma opt_eqb_eq (a b : option Z) : Orm.opt_eqb a b = true <-> a = b.
Proof.
  destruct a as [x|], b as [y|]; simpl; split; intros H;
    try discriminate; try reflexivity.
  - apply Z.eqb_eq in H. congruence.
  - injection H as ->. apply Z.eqb_refl.
Qed.

Lemma roster_db :
  Roster.db =
  {| team := [{| Team.TeamID := 1; Team.TeamName := "A" |}];
     position := position Roster.empty;
     player := [Roster.n1; Roster.n2] |}.
Proof. vm_compute. reflexivity. Qed.

Lemma roster_fk_team : fk_team Roster.db.
Proof.
  rewrite roster_db. intros p id [<-|[<-|[]]] E; simpl in E;
    injection E as <-; left; reflexivity.
Qed.

Lemma roster_fk_position : fk_position Roster.db.
Proof.
  rewrite roster_db. intros p id [<-|[<-|[]]] E; simpl in E;
    injection E as <-; unfold position_exists; simpl; tauto.
Qed.

Lemma roster_pk_unique : pk_unique Roster.db.
Proof.
  rewrite roster_db. unfold pk_unique. simpl.
  repeat constructor; simpl; intuition discriminate.
Qed.

(** ** Binding *)

Lemma bind_ints_Raise (ns : list Z) (e : exn) :
  Sqlite.bind_ints ns = Raise e -> e = OverflowError.
Proof.
  induction ns as [|n ns IH]; simpl; [discriminate|].
  destruct (Sqlite.int64 n); [exact IH|]. intros H. injection H as <-.
  reflexivity.
Qed.

Lemma bind_ints_Ok (ns : list Z) :
  (forall n, In n ns -> Sqlite.int64 n = true) -> Sqlite.bind_ints ns = Ok tt.
Proof.
  induction ns as [|n ns IH]; simpl; intros H; [reflexivity|].
  rewrite (H n (or_introl eq_refl)). apply IH. intros m Hm. apply H.
  right. exact Hm.
Qed.

Lemma bind_one (n : Z) :
  Sqlite.bind_ints [n]
  = if Sqlite.int64 n then Ok tt else Raise OverflowError.
Proof. reflexivity. Qed.

Lemma get_or_404_Some (db : DB) (player_id : Z) (p : Player.t) :
  Orm.get db player_id = Some p -> Orm.get_or_404 db player_id = Ok (Some p).
Proof. intros H. unfold Orm.get_or_404. rewrite H. reflexivity. Qed.

(** ** Deleting a team *)

(** After n1 was moved to team 99 there is no team 99, and [delete_team 99]
    all the same removes player 1; and an id beyond the 64 bits is answered
    with an unhandled [OverflowError], not with the redirect (C8 as stated
    fails at both). *)
Lemma delete_team_not_a_no_op :
  ~ team_exists roster_team99 99 /\
  map Player.PlayerID (player roster_team99) = [1; 2] /\
  map Player.PlayerID (player (snd (delete_team roster_team99 99))) = [2] /\
  delete_team Roster.db (2 ^ 63) = (Unhandled OverflowError, Roster.db).
Proof.
  split.
  - unfold team_exists. vm_compute. intros [H|[]]. discriminate H.
  - repeat split; vm_compute; reflexivity.
Qed.

(** C8, amended. For a team id within the 64 bits [delete_team] answers
    with the redirect, removes exactly the players whose team reference is
    that id and the team row with that id, and leaves the other players, the
    other teams and the positions as they are; when neither a team nor a
    player carries the id nothing changes. An id beyond the 64 bits is an
    unhandled [OverflowError] and nothing changes. *)
Theorem delete_team_cascades (db : DB) (team_id : Z) :
  (Sqlite.int64 team_id = true ->
   exists db',
     delete_team db team_id = (Redirect remove_teams_page, db') /\
     (forall p, In p (player db') <->
                In p (player db) /\ Player.TeamID p <> Some team_id) /\
     (forall t, In t (team db') <->
                In t (team db) /\ Team.TeamID t <> team_id) /\
     position db' = position db /\
     (~ team_exists db team_id ->
      (forall p, In p (player db) -> Player.TeamID p <> Some team_id) ->
      db' = db)) /\
  (Sqlite.int64 team_id = false ->
   delete_team db team_id = (Unhandled OverflowError, db)).
Proof.
  unfold delete_team. rewrite bind_one. split; intros Hr; rewrite Hr;
    [|reflexivity].
  eexists. split; [reflexivity|]. simpl.
  split; [|split; [|split; [reflexivity|]]].
  - intros p. rewrite filter_In. split; intros [H1 H2]; (split; [exact H1|]).
    + intros E. rewrite E in H2. simpl in H2. rewrite Z.eqb_refl in H2.
      discriminate.
    + destruct (Orm.opt_eqb (Player.TeamID p) (Some team_id)) eqn:E;
        [|reflexivity].
      apply opt_eqb_eq in E. contradiction.
  - intros t. rewrite filter_In. split; intros [H1 H2]; (split; [exact H1|]).
    + intros E. subst team_id. rewrite Z.eqb_refl in H2. discriminate.
    + destruct (Team.TeamID t =? team_id) eqn:E; [|reflexivity].
      apply Z.eqb_eq in E. contradiction.
  - intros Hno Hnone.
    unfold Orm.delete_team_where_TeamID, Orm.delete_player_where_TeamID,
      set_team, set_player. simpl.
    rewrite !filter_all.
    + destruct db; reflexivity.
    + intros p Hp.
      destruct (Orm.opt_eqb (Player.TeamID p) (Some team_id)) eqn:E;
        [|reflexivity].
      apply opt_eqb_eq in E. exfalso. exact (Hnone p Hp E).
    + intros t Ht. destruct (Team.TeamID t =? team_id) eqn:E; [|reflexivity].
      apply Z.eqb_eq in E. exfalso. apply Hno. subst team_id.
      apply in_map. exact Ht.
Qed.

(** Deleting team 7, which nothing refers to, leaves the roster as it is;
    deleting team 2^63 is an error. *)
Lemma delete_team_cascades_witness :
  snd (delete_team Roster.db 7) = Roster.db /\
  delete_team Roster.db (2 ^ 63) = (Unhandled OverflowError, Roster.db).
Proof.
  destruct (delete_team_cascades Roster.db 7) as (H7 & _).
  destruct (H7 eq_refl) as (db' & E & _ & _ & _ & H).
  destruct (delete_team_cascades Roster.db (2 ^ 63)) as (_ & Hbig).
  split; [|exact (Hbig eq_refl)].
  rewrite E. simpl. apply H.
  - unfold team_exists. rewrite roster_db. simpl.
    intros [H1|[]]. discriminate H1.
  - rewrite roster_db. intros p [<-|[<-|[]]]; discriminate.
Defined.

(** ** Creating a team *)

(** C9. A valid submission of [add_team] whose name is the name of a team
    already stored fails with [IntegrityError], the violation of the UNIQUE
    index, and the database, so the team table too, is what it was. *)
Theorem add_team_duplicate_name (db : DB) (req : request) (t : Team.t) :
  In t (team db) ->
  Forms.TeamForm_validate_on_submit req = Some (Team.TeamName t) ->
  add_team db req = (Unhandled IntegrityError, db).
Proof.
  intros Hin Hv. unfold add_team. rewrite Hv. unfold Orm.insert_team.
  replace (existsb _ (team db)) with true; [reflexivity|].
  symmetry. apply existsb_exists. exists t. split; [exact Hin|].
  apply String.eqb_refl.
Qed.

Lemma add_team_duplicate_name_witness :
  add_team Roster.db (Roster.submit [("team_name", "A")])
  = (Unhandled IntegrityError, Roster.db).
Proof.
  apply (add_team_duplicate_name Roster.db
           (Roster.submit [("team_name", "A")])
           {| Team.TeamID := 1; Team.TeamName := "A" |}).
  - rewrite roster_db. left. reflexivity.
  - reflexivity.
Defined.

(** ** Creating a player *)

Lemma SelectField_in (choices : list (Z * Py.str)) (raw : option Py.str) (n : Z) :
  Forms.SelectField choices raw = Some n -> In n (map fst choices).
Proof.
  unfold Forms.SelectField. destruct raw as [v|]; [|discriminate].
  destruct (Py.int v) as [m|]; [|discriminate].
  destruct (existsb _ choices) eqn:E; [|discriminate].
  intros H. injection H as <-.
  apply existsb_exists in E. destruct E as (c & Hc & Hm).
  apply Z.eqb_eq in Hm. subst m. apply in_map. exact Hc.
Qed.

(** What the INSERT of a player does: it stores the row, with the height as
    the engine reads it back, or fails with one of two exceptions and stores
    nothing. *)
Lemma insert_player_cases (db : DB) (n : Py.str) (a : Z) (h : Py.float)
    (t q : option Z) :
  (Orm.insert_player db n a h t q
   = Ok (set_player db
           (player db ++
            [{| Player.PlayerID := Orm.next_rowid (map Player.PlayerID (player db));
                Player.Name := n; Player.Age := a;
                Player.Height := Sqlite.real h;
                Player.TeamID := t; Player.PositionID := q;
                Player.Version := 1 |}])) /\
   Sqlite.null_real h = false /\ Sqlite.int64 a = true) \/
  Orm.insert_player db n a h t q = Raise OverflowError \/
  Orm.insert_player db n a h t q = Raise IntegrityError.
Proof.
  unfold Orm.insert_player. simpl Sqlite.bind_ints.
  destruct (Sqlite.int64 a); [|right; left; reflexivity].
  destruct (Sqlite.bind_ints _) as [u|e] eqn:E; simpl.
  - destruct (Sqlite.null_real h); [right; right; reflexivity|].
    left. auto.
  - apply bind_ints_Raise in E. subst e. right. left. reflexivity.
Qed.

(** C10. [add_player] either stores nothing (it renders the form again, or
    the commit fails with an exception it does not catch), or appends one
    player whose team reference and position reference are both set, to
    the id of a team and the id of a position stored at that moment. *)
Theorem add_player_references_exist (db : DB) (req : request) :
  add_player db req = (Render "add_player.html", db) \/
  (exists e, (e = OverflowError \/ e = IntegrityError) /\
             add_player db req = (Unhandled e, db)) \/
  exists p t q,
    add_player db req = (Redirect index, set_player db (player db ++ [p])) /\
    Player.TeamID p = Some t /\ team_exists db t /\
    Player.PositionID p = Some q /\ position_exists db q.
Proof.
  unfold add_player.
  destruct (Forms.PlayerForm_validate_on_submit req _ _) as [f|] eqn:E;
    [right|left; reflexivity].
  unfold Forms.PlayerForm_validate_on_submit in E.
  destruct (method req); [discriminate|].
  destruct (csrf_valid req); [|discriminate].
  destruct (Forms.StringField _) as [n|]; [|discriminate].
  destruct (Forms.IntegerField _) as [a|]; [|discriminate].
  destruct (Forms.FloatField _) as [h|]; [|discriminate].
  destruct (Forms.SelectField _ (form_get (form req) "team")) as [t|] eqn:Et;
    [|discriminate].
  destruct (Forms.SelectField _ (form_get (form req) "position")) as [q|] eqn:Eq;
    [|discriminate].
  injection E as <-. cbn [Forms.name Forms.age Forms.height Forms.team
                          Forms.position].
  destruct (insert_player_cases db n a h (Some t) (Some q))
    as [(-> & _)|[-> | ->]].
  - right. eexists _, t, q. split; [reflexivity|]. simpl.
    apply SelectField_in in Et. apply SelectField_in in Eq.
    rewrite map_map in Et, Eq. simpl in Et, Eq.
    repeat split; assumption.
  - left. exists OverflowError. auto.
  - left. exists IntegrityError. auto.
Qed.

(** ** The report: the result set *)

Lemma filter_and {A : Type} (f g : A -> bool) (l : list A) :
  filter (fun x => f x && g x) l = filter g (filter f l).
Proof.
  induction l as [|a l IH]; simpl; [reflexivity|].
  destruct (f a); simpl; [destruct (g a)|]; rewrite IH; reflexivity.
Qed.

(** The page a POST is answered with, once the two submitted values are
    read and the ids are bound. *)
Lemma report_POST (db : DB) (req : request) (tf pf : filter_input) :
  method req = POST ->
  reads_as (form_get (form req) "team") tf ->
  reads_as (form_get (form req) "position") pf ->
  bindable tf -> bindable pf ->
  report db req =
  (st <- report_stats (result_set db tf pf) ;;
   Ok {| players := Some (result_set db tf pf); teams := team db;
         positions := position db; page_stats := Some st |}).
Proof.
  intros Hm Ht Hp Bt Bp. unfold report. rewrite Hm.
  assert (Hsel : forall q, select_player db q
                 = filter (fun p => forallb (holds (bound q) p) (filters q))
                          (player db)) by reflexivity.
  destruct tf as [|t], pf as [|q]; simpl in Ht, Hp, Bt, Bp.
  - rewrite Ht, Hp. simpl. rewrite Hsel. simpl.
    unfold result_set. simpl. rewrite filter_all by reflexivity. reflexivity.
  - destruct Hp as (s & Hs & Hi). rewrite Ht, Hs. simpl. rewrite Hi. simpl.
    rewrite Bp. simpl.
    rewrite Hsel. simpl. unfold result_set. simpl.
    rewrite (filter_ext _ (fun p => Orm.opt_eqb (Player.PositionID p) (Some q)));
      [reflexivity|].
    intros p. rewrite andb_true_r.
    destruct (Player.PositionID p); reflexivity.
  - destruct Ht as (s & Hs & Hi). rewrite Hs, Hp. simpl. rewrite Hi. simpl.
    rewrite Bt. simpl.
    rewrite Hsel. simpl. unfold result_set. simpl.
    rewrite (filter_ext _ (fun p => Orm.opt_eqb (Player.TeamID p) (Some t)));
      [reflexivity|].
    intros p. rewrite andb_true_r.
    destruct (Player.TeamID p); reflexivity.
  - destruct Ht as (s & Hs & Hi). destruct Hp as (s' & Hs' & Hi').
    rewrite Hs, Hs'. simpl. rewrite Hi. simpl. rewrite Hi'. simpl.
    rewrite Bt, Bp. simpl.
    rewrite Hsel. simpl. unfold result_set. simpl.
    rewrite <- filter_and.
    rewrite (filter_ext _ (fun p => Orm.opt_eqb (Player.TeamID p) (Some t)
                                    && Orm.opt_eqb (Player.PositionID p) (Some q)));
      [reflexivity|].
    intros p. rewrite andb_true_r.
    destruct (Player.TeamID p), (Player.PositionID p); reflexivity.
Qed.

(** An id beyond the 64 bits stops the query when it is bound. *)
Lemma report_unbindable (db : DB) (req : request) (tf pf : filter_input) :
  method req = POST ->
  reads_as (form_get (form req) "team") tf ->
  reads_as (form_get (form req) "position") pf ->
  (exists id, (tf = Specific_id id \/ pf = Specific_id id) /\
              Sqlite.int64 id = false) ->
  report db req = Raise OverflowError.
Proof.
  intros Hm Ht Hp (id & Hid & Hr). unfold report. rewrite Hm.
  destruct tf as [|t], pf as [|q]; simpl in Ht, Hp.
  - destruct Hid; discriminate.
  - destruct Hp as (s & Hs & Hi). rewrite Ht, Hs. simpl. rewrite Hi. simpl.
    destruct Hid as [H|H]; [discriminate|]. injection H as ->.
    rewrite Hr. reflexivity.
  - destruct Ht as (s & Hs & Hi). rewrite Hs, Hp. simpl. rewrite Hi. simpl.
    destruct Hid as [H|H]; [|discriminate]. injection H as ->.
    rewrite Hr. reflexivity.
  - destruct Ht as (s & Hs & Hi). destruct Hp as (s' & Hs' & Hi').
    rewrite Hs, Hs'. simpl. rewrite Hi. simpl. rewrite Hi'. simpl.
    destruct Hid as [H|H]; injection H as ->; rewrite Hr;
      [reflexivity|]. destruct (Sqlite.int64 t); reflexivity.
Qed.



(** ** The report: the statistics *)

Lemma div_half_even_nearest (n : Z) (d : positive) :
  nearest_even (n # d) (Py.div_half_even n (Zpos d)).
Proof.
  unfold Py.div_half_even.
  pose proof (Z.div_mod n (Zpos d) ltac:(lia)) as E.
  pose proof (Z.mod_pos_bound n (Zpos d) ltac:(lia)) as B.
  set (q := n / Zpos d) in *. set (r := n mod Zpos d) in *.
  clearbody q r. subst n.
  unfold nearest_even, Qlt, Qeq, Qabs, Qminus, Qplus, Qopp, inject_Z.
  cbn [Qnum Qden]. rewrite Pos.mul_1_r.
  replace ((Zpos d * q + r) * 1 + - q * Zpos d) with r by ring.
  replace ((Zpos d * q + r) * 1 + - (q + 1) * Zpos d) with (r - Zpos d) by ring.
  destruct (2 * r ?= Zpos d) eqn:C.
  - apply Z.compare_eq in C.
    destruct (Z.even q) eqn:Ev.
    + right. split; [|exact Ev]. lia.
    + right. split; [lia|].
      rewrite Z.add_1_r, Z.even_succ, <- Z.negb_even, Ev. reflexivity.
  - assert (C' : 2 * r < Zpos d) by exact C. left. lia.
  - apply Z.compare_gt_iff in C. left. lia.
Qed.

(** The integer nearest to a rational, ties to even, is one integer. *)
Lemma nearest_even_unique (q : Q) (k k' : Z) :
  nearest_even q k -> nearest_even q k' -> k = k'.
Proof.
  destruct q as [a b].
  unfold nearest_even, Qlt, Qeq, Qabs, Qminus, Qplus, Qopp, inject_Z.
  cbn [Qnum Qden]. rewrite Pos.mul_1_r.
  set (B := Zpos b). assert (HB : 0 < B) by (unfold B; lia). clearbody B.
  intros H H'.
  assert (Hd : Z.abs (k - k') * B <= Z.abs (a * 1 + - k * B)
                                     + Z.abs (a * 1 + - k' * B)).
  { rewrite <- (Z.abs_eq B) at 1 by lia. rewrite <- Z.abs_mul.
    replace ((k - k') * B) with ((a * 1 + - k' * B) - (a * 1 + - k * B))
      by ring.
    lia. }
  assert (Hle : Z.abs (k - k') <= 1).
  { destruct H as [H|[H _]], H' as [H'|[H' _]]; nia. }
  destruct (Z.eq_dec k k') as [E|N]; [exact E|exfalso].
  assert (H1 : Z.abs (k - k') = 1) by lia.
  destruct H as [H|[H Ev]], H' as [H'|[H' Ev']]; try nia.
  assert (Hk : k' = k + 1 \/ k = k' + 1) by lia.
  destruct Hk as [-> | ->].
  - rewrite Z.add_1_r, Z.even_succ, <- Z.negb_even, Ev in Ev'. discriminate.
  - rewrite Z.add_1_r, Z.even_succ, <- Z.negb_even, Ev' in Ev. discriminate.
Qed.

(** [round(x, 2)] rounds to two decimals. *)
Lemma round2_two_decimals (x : Py.float) : two_decimals x (Py.round2 x).
Proof.
  destruct x as [s|s| |s m e]; try reflexivity.
  unfold two_decimals, Py.round2, magnitude.
  destruct (0 <=? e) eqn:He.
  - exists (100 * Zpos m * 2 ^ e). split; [|reflexivity].
    left. unfold Qlt, Qabs, Qminus, Qplus, Qopp, Qmult, inject_Z.
    cbn [Qnum Qden]. lia.
  - exists (Py.div_half_even (100 * Zpos m) (2 ^ (- e))). split; [|reflexivity].
    apply Z.leb_gt in He.
    assert (Hp : 0 < 2 ^ (- e)) by (apply Z.pow_pos_nonneg; lia).
    destruct (2 ^ (- e)) as [|d|d] eqn:Ed; try lia.
    change (Z.to_pos (Zpos d)) with d.
    exact (div_half_even_nearest (100 * Zpos m) d).
Qed.

Lemma report_stats_Ok (rows : list Player.t) (st : stats) :
  report_stats rows = Ok st ->
  total st = Z.of_nat (List.length rows) /\
  match rows with
  | [] => avg_age st = Py.Int 0 /\ avg_height st = Py.Int 0
  | _ :: _ =>
      exists m, mean_age rows = Some m /\
                avg_age st = Py.Float (Py.round2 m) /\
                avg_height st = Py.Float (Py.round2 (mean_height rows))
  end.
Proof.
  unfold report_stats, mean_age, mean_height.
  destruct rows as [|r rs].
  - intros H. injection H as <-. simpl. auto.
  - rewrite !length_map.
    destruct (Py.truediv_int _ _) as [m|]; [|discriminate].
    intros H. injection H as <-. simpl total. split; [reflexivity|].
    exists m. simpl. auto.
Qed.

(** What a page that [report] answers with carries. *)
Lemma report_Ok_stats (db : DB) (req : request) (page : report_page)
    (rows : list Player.t) :
  report db req = Ok page ->
  players page = Some rows ->
  exists st, page_stats page = Some st /\ report_stats rows = Ok st.
Proof.
  unfold report. destruct (method req).
  - intros H. injection H as <-. discriminate.
  - destruct (match specific (form_get (form req) "team") with
              | Some _ => _ | None => _ end) as [q1|]; [|discriminate].
    simpl.
    destruct (match specific (form_get (form req) "position") with
              | Some _ => _ | None => _ end) as [q2|]; [|discriminate].
    simpl.
    destruct (Sqlite.bind_ints _) as [u|]; [|discriminate]. simpl.
    destruct (report_stats (select_player db q2)) as [st|] eqn:E;
      [|discriminate].
    simpl. intros H. injection H as <-. simpl. intros H. injection H as <-.
    exists st. split; [reflexivity|exact E].
Qed.

(** The players q1 and q2 have the heights 1/4 and 2^-60. Their mean is
    above 1/8, so that 13 is the hundredth nearest to it, and 12 is not; the
    report shows 0.12, the float nearest to 12/100, because the float sum of
    the two heights is 1/4 (C6 as stated fails here). *)
Lemma report_rounds_float_mean :
  exists page st,
    report Roster.thin (Roster.submit []) = Ok page /\
    page_stats page = Some st /\
    avg_height st = Py.Float (hundredths false 12) /\
    nearest_even
      (100 * exact_mean (map (fun p => magnitude (Player.Height p))
                             (player Roster.thin))) 13 /\
    ~ nearest_even
      (100 * exact_mean (map (fun p => magnitude (Player.Height p))
                             (player Roster.thin))) 12 /\
    hundredths false 12 <> hundredths false 13.
Proof.
  eexists. eexists. split; [vm_compute; reflexivity|].
  split; [reflexivity|]. split; [vm_compute; reflexivity|].
  split; [left; vm_compute; reflexivity|].
  split.
  - intros [H|[H _]]; vm_compute in H; discriminate H.
  - vm_compute. discriminate.
Qed.

(** C6, amended. On every page that lists a result set, [total] is the
    number of its players; when there is none the three statistics are the
    integer 0; otherwise [avg_age] and [avg_height] are the float means of
    the ages and of the heights of exactly these players (the sum of the ages
    over the count as the nearest float; the float sum of the heights divided
    by the count), each rounded to two decimals: the float nearest to the
    hundredth nearest to the exact value of that float mean, ties to the even
    hundredth. *)
Theorem report_statistics (db : DB) (req : request) (page : report_page)
    (rows : list Player.t) :
  report db req = Ok page ->
  players page = Some rows ->
  exists st,
    page_stats page = Some st /\
    total st = Z.of_nat (List.length rows) /\
    match rows with
    | [] => avg_age st = Py.Int 0 /\ avg_height st = Py.Int 0
    | _ :: _ =>
        exists a y_age y_height,
          mean_age rows = Some a /\
          two_decimals a y_age /\ avg_age st = Py.Float y_age /\
          two_decimals (mean_height rows) y_height /\
          avg_height st = Py.Float y_height
    end.
Proof.
  intros Hr Hp. destruct (report_Ok_stats db req page rows Hr Hp)
    as (st & Hs & E).
  exists st. split; [exact Hs|].
  destruct (report_stats_Ok rows st E) as (Ht & H). split; [exact Ht|].
  destruct rows as [|r rs]; [exact H|].
  destruct H as (m & Hm & Ha & Hh).
  exists m, (Py.round2 m), (Py.round2 (mean_height (r :: rs))).
  repeat split; try assumption; apply round2_two_decimals.
Qed.

(** The players q1 and q2: two players, mean age 20.5, and the mean height
    0.125 shown as 0.12. *)
Lemma report_statistics_witness :
  exists page st,
    report Roster.thin (Roster.submit []) = Ok page /\
    page_stats page = Some st /\
    total st = 2 /\
    avg_age st = Py.Float (hundredths false 2050) /\
    avg_height st = Py.Float (hundredths false 12).
Proof.
  destruct (report Roster.thin (Roster.submit [])) as [page|] eqn:E;
    [|vm_compute in E; discriminate E].
  assert (Hp : players page = Some (player Roster.thin)).
  { vm_compute in E. injection E as <-. vm_compute. reflexivity. }
  destruct (report_statistics Roster.thin (Roster.submit []) page
              (player Roster.thin) E Hp) as (st & Hs & Ht & H).
  exists page, st. split; [reflexivity|]. split; [exact Hs|].
  split; [exact Ht|].
  assert (Hrows : player Roster.thin
                  = hd Roster.n1 (player Roster.thin)
                    :: tl (player Roster.thin)) by (vm_compute; reflexivity).
  rewrite Hrows in H. rewrite <- Hrows in H.
  destruct H as (a & ya & yh & Ha & Hya & -> & Hyh & ->).
  assert (Ea : a = S754_finite false 5770237022568448 (-48)).
  { vm_compute in Ha. injection Ha as <-. reflexivity. }
  assert (Eh : mean_height (player Roster.thin)
               = S754_finite false 4503599627370496 (-55))
    by (vm_compute; reflexivity).
  rewrite Ea in Hya. rewrite Eh in Hyh.
  destruct Hya as (k & Hk & ->). destruct Hyh as (k' & Hk' & ->).
  rewrite (nearest_even_unique _ k 2050 Hk) by (left; vm_compute; reflexivity).
  rewrite (nearest_even_unique _ k' 12 Hk')
    by (right; split; vm_compute; reflexivity).
  split; reflexivity.
Defined.

(** The scenario of the two players n1 and n2 filtered by team 1: two
    players, mean age 21.0, mean height 69.0. *)
Lemma report_team_1 :
  report Roster.db (Roster.submit [("team", "1"); ("position", "all")])
  = Ok {| players := Some [Roster.n1; Roster.n2];
          teams := team Roster.db;
          positions := position Roster.db;
          page_stats :=
            Some {| total := 2;
                    avg_age := Py.Float (Py.float_of_int 21);
                    avg_height := Py.Float (Py.float_of_int 69) |} |}.
Proof. vm_compute. reflexivity. Qed.

(** ** The report: the filter tokens *)

Lemma report_unrecognised (db : DB) (req : request) :
  method req = POST ->
  unrecognised (form_get (form req) "team") \/
  unrecognised (form_get (form req) "position") ->
  report db req = Raise ValueError.
Proof.
  intros Hm H. unfold report. rewrite Hm.
  destruct (specific (form_get (form req) "team")) as [s|] eqn:Et.
  - destruct (Py.int s) as [n|] eqn:En; [|reflexivity]. simpl.
    destruct H as [(s' & Hs & Hi)|(s' & Hs & Hi)]; [congruence|].
    rewrite Hs. simpl. rewrite Hi. reflexivity.
  - simpl. destruct H as [(s' & Hs & Hi)|(s' & Hs & Hi)]; [congruence|].
    rewrite Hs. simpl. rewrite Hi. reflexivity.
Qed.

Lemma reads_as_total (selected : option Py.str) :
  unrecognised selected \/ exists fi, reads_as selected fi.
Proof.
  destruct (specific selected) as [s|] eqn:E.
  - destruct (Py.int s) as [n|] eqn:En.
    + right. exists (Specific_id n). exists s. auto.
    + left. exists s. auto.
  - right. exists Match_all. exact E.
Qed.

Lemma filter_none (l : list Player.t) (f : Player.t -> bool) :
  (forall p, In p l -> f p = false) -> filter f l = [].
Proof.
  induction l as [|a l IH]; intros H; simpl; [reflexivity|].
  rewrite (H a (or_introl eq_refl)). apply IH.
  intros p Hp. apply H. right. exact Hp.
Qed.

(** The empty token is not a number and is not "all", and [report] takes
    it for match all: the page lists every player (C7 as stated fails
    here). *)
Lemma report_empty_token_matches_all :
  Py.int "" = None /\ "" <> "all" /\
  exists page,
    report Roster.db (Roster.submit [("team", "")]) = Ok page /\
    players page = Some (player Roster.db).
Proof.
  split; [reflexivity|]. split; [discriminate|].
  eexists. split; vm_compute; reflexivity.
Qed.

(** C7, amended. A token that is not empty, is not "all" and is not
    accepted by [int()] makes [report] raise [ValueError], whichever of the
    two filters carries it; the empty token is read as match all. When both
    tokens are read, a token [int()] converts to an id within the 64 bits
    that no team (no position) has yields, on a database whose references
    are valid, the empty result set with the three statistics 0, and no
    error; an id beyond the 64 bits makes [report] raise [OverflowError]. *)
Theorem report_filter_tokens (db : DB) (req : request) :
  method req = POST ->
  (unrecognised (form_get (form req) "team") \/
   unrecognised (form_get (form req) "position") ->
   report db req = Raise ValueError) /\
  (forall fi, reads_as (Some "") fi -> fi = Match_all) /\
  (forall id pf,
     reads_as (form_get (form req) "team") (Specific_id id) ->
     reads_as (form_get (form req) "position") pf ->
     Sqlite.int64 id = true -> bindable pf ->
     ~ team_exists db id -> fk_team db ->
     report db req =
     Ok {| players := Some []; teams := team db; positions := position db;
           page_stats := Some no_stats |}) /\
  (forall id tf,
     reads_as (form_get (form req) "team") tf ->
     reads_as (form_get (form req) "position") (Specific_id id) ->
     bindable tf -> Sqlite.int64 id = true ->
     ~ position_exists db id -> fk_position db ->
     report db req =
     Ok {| players := Some []; teams := team db; positions := position db;
           page_stats := Some no_stats |}) /\
  (forall tf pf,
     reads_as (form_get (form req) "team") tf ->
     reads_as (form_get (form req) "position") pf ->
     (exists id, (tf = Specific_id id \/ pf = Specific_id id) /\
                 Sqlite.int64 id = false) ->
     report db req = Raise OverflowError).
Proof.
  intros Hm. split; [exact (report_unrecognised db req Hm)|].
  split.
  { intros [|id]; simpl; [reflexivity|]. intros (s & Hs & _).
    discriminate Hs. }
  split; [|split].
  - intros id pf Ht Hp Bt Bp Hno Hfk.
    rewrite (report_POST db req (Specific_id id) pf Hm Ht Hp Bt Bp).
    assert (E : result_set db (Specific_id id) pf = []).
    { unfold result_set. simpl.
      rewrite filter_none; [destruct pf; reflexivity|].
      intros p Hin.
      destruct (Orm.opt_eqb (Player.TeamID p) (Some id)) eqn:E; [|reflexivity].
      apply opt_eqb_eq in E. exfalso. apply Hno. exact (Hfk p id Hin E). }
    rewrite E. reflexivity.
  - intros id tf Ht Hp Bt Bp Hno Hfk.
    rewrite (report_POST db req tf (Specific_id id) Hm Ht Hp Bt Bp).
    assert (E : result_set db tf (Specific_id id) = []).
    { unfold result_set. simpl. apply filter_none. intros p Hin.
      destruct (Orm.opt_eqb (Player.PositionID p) (Some id)) eqn:E;
        [|reflexivity].
      apply opt_eqb_eq in E. exfalso. apply Hno.
      apply (Hfk p id); [|exact E].
      destruct tf; simpl in Hin; [exact Hin|].
      apply filter_In in Hin. tauto. }
    rewrite E. reflexivity.
  - intros tf pf. exact (report_unbindable db req tf pf Hm).
Qed.

(** The token "x" is rejected; team 7, which does not exist, gives the
    empty page; team 2^63 is an error. *)
Lemma report_filter_tokens_witness :
  report Roster.db (Roster.submit [("team", "x")]) = Raise ValueError /\
  report Roster.db (Roster.submit [("team", "7")])
  = Ok {| players := Some []; teams := team Roster.db;
          positions := position Roster.db; page_stats := Some no_stats |} /\
  report Roster.db (Roster.submit [("team", "9223372036854775808")])
  = Raise OverflowError.
Proof.
  split; [|split].
  - apply (proj1 (report_filter_tokens Roster.db
                    (Roster.submit [("team", "x")]) eq_refl)).
    left. exists "x". split; reflexivity.
  - apply (proj1 (proj2 (proj2 (report_filter_tokens Roster.db
                    (Roster.submit [("team", "7")]) eq_refl)))
             7 Match_all).
    + exists "7". split; reflexivity.
    + reflexivity.
    + reflexivity.
    + exact I.
    + unfold team_exists. rewrite roster_db. simpl.
      intros [H7|[]]. discriminate H7.
    + exact roster_fk_team.
  - apply (proj2 (proj2 (proj2 (proj2 (report_filter_tokens Roster.db
                    (Roster.submit [("team", "9223372036854775808")])
                    eq_refl))))
             (Specific_id (2 ^ 63)) Match_all).
    + exists "9223372036854775808". split; reflexivity.
    + reflexivity.
    + exists (2 ^ 63). split; [left|]; reflexivity.
Defined.

(** ** Editing a player *)

Lemma edit_player_assign_Ok (player : Player.t) (f : list (Py.str * Py.str))
    (new : Player.t) :
  edit_player_assign player f = Ok new <->
  exists name a age h height t team q position,
    form_get f "name" = Some name /\
    form_get f "age" = Some a /\ Py.int a = Some age /\
    form_get f "height" = Some h /\ Py.float_of_str h = Some height /\
    form_get f "team" = Some t /\ Py.int t = Some team /\
    form_get f "position" = Some q /\ Py.int q = Some position /\
    new = {| Player.PlayerID := Player.PlayerID player;
             Player.Name := name; Player.Age := age; Player.Height := height;
             Player.TeamID := Some team; Player.PositionID := Some position;
             Player.Version := Player.Version player |}.
Proof.
  unfold edit_player_assign, form_getitem. split.
  - destruct (form_get f "name") as [name|]; [|discriminate]. simpl.
    destruct (form_get f "age") as [a|]; [|discriminate]. simpl.
    destruct (Py.int a) as [age|] eqn:Ha; [|discriminate]. simpl.
    destruct (form_get f "height") as [h|]; [|discriminate]. simpl.
    destruct (Py.float_of_str h) as [height|] eqn:Hh; [|discriminate]. simpl.
    destruct (form_get f "team") as [t|]; [|discriminate]. simpl.
    destruct (Py.int t) as [team|] eqn:Ht; [|discriminate]. simpl.
    destruct (form_get f "position") as [q|]; [|discriminate]. simpl.
    destruct (Py.int q) as [position|] eqn:Hq; [|discriminate]. simpl.
    intros H. injection H as <-.
    exists name, a, age, h, height, t, team, q, position.
    repeat split; assumption || reflexivity.
  - intros (name & a & age & h & height & t & team & q & position &
            -> & -> & Ha & -> & Hh & -> & Ht & -> & Hq & ->).
    simpl. rewrite Ha. simpl. rewrite Hh. simpl. rewrite Ht. simpl.
    rewrite Hq. reflexivity.
Qed.

(** The two ways an assignment of [edit_player] fails. *)
Ltac key_missing E :=
  intros H; injection H as <-; right; eexists;
  split; [|split; [exact E|reflexivity]]; simpl; tauto.

Ltac bad_literal := intros H; injection H as <-; left; reflexivity.

(** The assignments raise what the form access and the conversions raise,
    never [StaleDataError]. *)
Lemma edit_player_assign_Raise (player : Player.t) (f : list (Py.str * Py.str))
    (e : exn) :
  edit_player_assign player f = Raise e ->
  e = ValueError \/
  exists k, In k edit_fields /\ form_get f k = None /\ e = BadRequestKeyError k.
Proof.
  unfold edit_player_assign, form_getitem, edit_fields.
  destruct (form_get f "name") eqn:E1; simpl; [|key_missing E1].
  destruct (form_get f "age") as [a|] eqn:E2; simpl; [|key_missing E2].
  destruct (Py.int a); simpl; [|bad_literal].
  destruct (form_get f "height") as [h|] eqn:E3; simpl; [|key_missing E3].
  destruct (Py.float_of_str h); simpl; [|bad_literal].
  destruct (form_get f "team") as [t|] eqn:E4; simpl; [|key_missing E4].
  destruct (Py.int t); simpl; [|bad_literal].
  destruct (form_get f "position") as [q|] eqn:E5; simpl; [|key_missing E5].
  destruct (Py.int q); simpl; [discriminate|bad_literal].
Qed.

Lemma get_Some (db : DB) (player_id : Z) (p : Player.t) :
  Orm.get db player_id = Some p ->
  In p (player db) /\ Player.PlayerID p = player_id.
Proof.
  unfold Orm.get. intros H. apply find_some in H.
  destruct H as [H1 H2]. apply Z.eqb_eq in H2. auto.
Qed.

Lemma where_pk_version_refl (p : Player.t) : Orm.where_pk_version p p = true.
Proof. unfold Orm.where_pk_version. rewrite !Z.eqb_refl. reflexivity. Qed.

(** Under the primary key the versioned UPDATE of a stored row matches that
    row and no other. *)
Lemma rowcount_stored (rows : list Player.t) (p : Player.t) :
  NoDup (map Player.PlayerID rows) -> In p rows -> Orm.rowcount p rows = 1%nat.
Proof.
  unfold Orm.rowcount. induction rows as [|a rows IH]; simpl;
    intros Hnd Hin; [contradiction|].
  inversion Hnd as [|x l Hnotin Hnd']. subst x l.
  destruct Hin as [->|Hin].
  - rewrite where_pk_version_refl. simpl. f_equal.
    replace (filter (Orm.where_pk_version p) rows) with (@nil Player.t);
      [reflexivity|].
    symmetry. clear IH Hnd Hnd'. induction rows as [|b rows IH]; simpl;
      [reflexivity|].
    destruct (Orm.where_pk_version p b) eqn:E.
    + exfalso. apply Hnotin. left.
      unfold Orm.where_pk_version in E. apply andb_true_iff in E.
      destruct E as [E _]. apply Z.eqb_eq in E. exact E.
    + apply IH. intros H. apply Hnotin. right. exact H.
  - replace (Orm.where_pk_version p a) with false; [apply IH; assumption|].
    symmetry. unfold Orm.where_pk_version.
    destruct (Player.PlayerID a =? Player.PlayerID p) eqn:E; [|reflexivity].
    exfalso. apply Z.eqb_eq in E. apply Hnotin. rewrite E.
    apply in_map. exact Hin.
Qed.

(** A stored row whose version is not the one loaded is not matched. *)
Lemma rowcount_stale (rows : list Player.t) (loaded : Player.t) :
  (forall r, In r rows -> Player.PlayerID r = Player.PlayerID loaded ->
             Player.Version r <> Player.Version loaded) ->
  Orm.rowcount loaded rows = 0%nat.
Proof.
  unfold Orm.rowcount. intros H.
  replace (filter (Orm.where_pk_version loaded) rows) with (@nil Player.t);
    [reflexivity|].
  symmetry. induction rows as [|a rows IH]; simpl; [reflexivity|].
  destruct (Orm.where_pk_version loaded a) eqn:E.
  - exfalso. unfold Orm.where_pk_version in E. apply andb_true_iff in E.
    destruct E as [E1 E2]. apply Z.eqb_eq in E1, E2.
    exact (H a (or_introl eq_refl) E1 E2).
  - apply IH. intros r Hr. apply H. right. exact Hr.
Qed.

Lemma update_row_id (loaded new r : Player.t) :
  Player.PlayerID (Orm.update_row loaded new r) = Player.PlayerID r.
Proof. unfold Orm.update_row. destruct (Orm.where_pk_version loaded r); reflexivity. Qed.

Lemma find_update_row (loaded new : Player.t) (rows : list Player.t)
    (player_id : Z) (p : Player.t) :
  find (fun r => Player.PlayerID r =? player_id) rows = Some p ->
  find (fun r => Player.PlayerID r =? player_id) (map (Orm.update_row loaded new) rows)
  = Some (Orm.update_row loaded new p).
Proof.
  induction rows as [|a rows IH]; simpl; [discriminate|].
  rewrite update_row_id.
  destruct (Player.PlayerID a =? player_id); [|exact IH].
  intros H. injection H as ->. reflexivity.
Qed.

Lemma others_update_row (loaded new : Player.t) (rows : list Player.t) :
  filter (fun q => negb (Player.PlayerID q =? Player.PlayerID loaded))
         (map (Orm.update_row loaded new) rows)
  = filter (fun q => negb (Player.PlayerID q =? Player.PlayerID loaded)) rows.
Proof.
  induction rows as [|a rows IH]; simpl; [reflexivity|].
  rewrite update_row_id, IH.
  destruct (Player.PlayerID a =? Player.PlayerID loaded) eqn:E; simpl;
    [reflexivity|].
  unfold Orm.update_row, Orm.where_pk_version. rewrite E. reflexivity.
Qed.


Lemma get_or_404_inv (db : DB) (player_id : Z) (p : Player.t) :
  Orm.get_or_404 db player_id = Ok (Some p) -> Orm.get db player_id = Some p.
Proof.
  unfold Orm.get_or_404. destruct (Orm.get db player_id) as [r|].
  - intros H. injection H as ->. reflexivity.
  - destruct (Sqlite.int64 player_id); discriminate.
Qed.

Lemma get_or_404_None (db : DB) (player_id : Z) :
  Orm.get db player_id = None ->
  Orm.get_or_404 db player_id
  = if Sqlite.int64 player_id then Ok None else Raise OverflowError.
Proof. intros H. unfold Orm.get_or_404. rewrite H. reflexivity. Qed.

(** What a commit that succeeds has done. *)
Lemma commit_update_Ok (loaded new : Player.t) (db db' : DB) :
  Orm.commit_update loaded new db = Ok db' ->
  if Orm.modified loaded new
  then db' = set_player db (map (Orm.update_row loaded new) (player db))
  else db' = db.
Proof.
  unfold Orm.commit_update.
  destruct (Orm.modified loaded new).
  - destruct (Sqlite.bind_ints _); [|discriminate]. simpl.
    destruct (Orm.rowcount loaded (player db)) as [|n]; [discriminate|].
    destruct (_ && _); [discriminate|].
    destruct (Nat.eqb n 0); [|discriminate]. intros H. injection H as <-.
    reflexivity.
  - intros H. injection H as <-. reflexivity.
Qed.

(** A commit that succeeded with a changed height did not write NaN. *)
Lemma commit_update_height (loaded new : Player.t) (db db' : DB) :
  Orm.commit_update loaded new db = Ok db' ->
  Orm.Height_changed loaded new = true ->
  Sqlite.null_real (Player.Height new) = false.
Proof.
  unfold Orm.commit_update, Orm.modified. intros H Hc. rewrite Hc in H.
  rewrite !orb_true_r in H. simpl in H.
  destruct (Sqlite.bind_ints _); [|discriminate]. simpl in H.
  destruct (Orm.rowcount loaded (player db)) as [|n]; [discriminate|].
  destruct (Sqlite.null_real (Player.Height new)); [discriminate|reflexivity].
Qed.

(** The exceptions of a commit. *)
Lemma commit_update_Raise (loaded new : Player.t) (db : DB) (e : exn) :
  Orm.commit_update loaded new db = Raise e ->
  e = OverflowError \/
  (e = StaleDataError /\ Orm.rowcount loaded (player db) <> 1%nat) \/
  e = IntegrityError.
Proof.
  unfold Orm.commit_update.
  destruct (Orm.modified loaded new); [|discriminate].
  destruct (Sqlite.bind_ints _) eqn:Eb; simpl.
  - destruct (Orm.rowcount loaded (player db)) as [|[|n]]; simpl.
    + intros H. injection H as <-. right. left. split; [reflexivity|].
      discriminate.
    + destruct (_ && _); [|discriminate]. intros H. injection H as <-. auto.
    + destruct (_ && _); intros H; injection H as <-;
        [auto|right; left; split; [reflexivity|discriminate]].
  - intros H. injection H as <-. left. exact (bind_ints_Raise _ _ Eb).
Qed.

(** The integers of an object within the 64 bits are bound. *)
Lemma update_ints_bound (loaded new : Player.t) :
  Sqlite.int64 (Player.Age new) = true ->
  (forall t, Player.TeamID new = Some t -> Sqlite.int64 t = true) ->
  (forall q, Player.PositionID new = Some q -> Sqlite.int64 q = true) ->
  Sqlite.int64 (Player.Version loaded + 1) = true ->
  Sqlite.bind_ints (Orm.update_ints loaded new) = Ok tt.
Proof.
  intros Ha Ht Hq Hv. apply bind_ints_Ok. intros n Hn.
  unfold Orm.update_ints in Hn.
  repeat (apply in_app_or in Hn; destruct Hn as [Hn|Hn]).
  - destruct (Orm.Age_changed loaded new); [|contradiction].
    destruct Hn as [<-|[]]. exact Ha.
  - destruct (Orm.TeamID_changed loaded new); [|contradiction].
    destruct (Player.TeamID new) as [t|]; [|contradiction].
    destruct Hn as [<-|[]]. apply Ht. reflexivity.
  - destruct (Orm.PositionID_changed loaded new); [|contradiction].
    destruct (Player.PositionID new) as [q|]; [|contradiction].
    destruct Hn as [<-|[]]. apply Hq. reflexivity.
  - destruct Hn as [<-|[]]. exact Hv.
Qed.

(** The request carries no version: the same POST sent a second time, after
    it succeeded once, succeeds again (C1 as stated fails here). *)
Lemma edit_player_repeat_succeeds :
  edit_player Roster.db 1 (Roster.submit n1_older)
  = (Redirect index, roster_n1_older) /\
  edit_player roster_n1_older 1 (Roster.submit n1_older)
  = (Redirect index, roster_n1_older).
Proof. split; vm_compute; reflexivity. Qed.

(** C1, amended. The version that is checked is the one the request itself
    read when it loaded the player. When the commit runs against a database
    in which the row of that player no longer has this version, and the form
    changes at least one attribute, the update is rejected and the database
    stays as it is: with [StaleDataError] when the integers of the form and
    the next version are within the 64 bits, and otherwise with that or with
    the [OverflowError] of the binding. A request that runs without another
    one in between, a repeated one too, is never rejected as stale. *)
Theorem edit_player_stale_version :
  (forall player_id loaded f db new,
     edit_player_assign loaded f = Ok new ->
     Orm.modified loaded new = true ->
     (forall r, In r (player db) ->
                Player.PlayerID r = Player.PlayerID loaded ->
                Player.Version r <> Player.Version loaded) ->
     (exists e, (e = StaleDataError \/ e = OverflowError) /\
                edit_player_POST player_id loaded f db
                = (Flash_redirect e (edit_player_page player_id), db)) /\
     (Sqlite.int64 (Player.Age new) = true ->
      (forall t, Player.TeamID new = Some t -> Sqlite.int64 t = true) ->
      (forall q, Player.PositionID new = Some q -> Sqlite.int64 q = true) ->
      Sqlite.int64 (Player.Version loaded + 1) = true ->
      edit_player_POST player_id loaded f db
      = (Flash_redirect StaleDataError (edit_player_page player_id), db))) /\
  (forall db player_id req target,
     pk_unique db ->
     fst (edit_player db player_id req) <> Flash_redirect StaleDataError target).
Proof.
  split.
  - intros player_id p f db new Ha Hm Hstale.
    unfold edit_player_POST. rewrite Ha. simpl.
    unfold Orm.commit_update. rewrite Hm.
    rewrite (rowcount_stale _ _ Hstale). split.
    + destruct (Sqlite.bind_ints _) as [u|e] eqn:Eb; simpl.
      * exists StaleDataError. auto.
      * apply bind_ints_Raise in Eb. subst e. exists OverflowError. auto.
    + intros H1 H2 H3 H4. rewrite (update_ints_bound p new H1 H2 H3 H4).
      reflexivity.
  - intros db player_id req target Hpk. unfold edit_player.
    destruct (Orm.get_or_404 db player_id) as [[p|]|e] eqn:Hg;
      [|discriminate|discriminate].
    apply get_or_404_inv in Hg.
    destruct (method req); [discriminate|].
    unfold edit_player_POST.
    destruct (edit_player_assign p (form req)) as [new|e] eqn:Ha; simpl.
    + destruct (Orm.commit_update p new db) as [d|e] eqn:Hc; [discriminate|].
      apply commit_update_Raise in Hc.
      apply get_Some in Hg. destruct Hg as [Hin _].
      destruct Hc as [->|[[_ Hc]| ->]]; try discriminate.
      exfalso. apply Hc. exact (rowcount_stored _ _ Hpk Hin).
    + apply edit_player_assign_Raise in Ha.
      destruct Ha as [->|(k & _ & _ & ->)]; discriminate.
Qed.

(** n1 was loaded at version 1; meanwhile another request brought the row
    to version 2; the form that sets the age to 30 is then rejected. *)
Lemma edit_player_stale_version_witness :
  edit_player_POST 1 Roster.n1
    [("name", "n1"); ("age", "30"); ("height", "70.0"); ("team", "1");
     ("position", "1")]
    roster_n1_older
  = (Flash_redirect StaleDataError (edit_player_page 1), roster_n1_older) /\
  fst (edit_player Roster.db 1 (Roster.submit n1_older))
  <> Flash_redirect StaleDataError (edit_player_page 1).
Proof.
  destruct edit_player_stale_version as (H1 & H2).
  split.
  - destruct (H1 1 Roster.n1
                [("name", "n1"); ("age", "30"); ("height", "70.0");
                 ("team", "1"); ("position", "1")]
                roster_n1_older
                {| Player.PlayerID := 1; Player.Name := "n1";
                   Player.Age := 30; Player.Height := Py.float_of_int 70;
                   Player.TeamID := Some 1; Player.PositionID := Some 1;
                   Player.Version := 1 |}) as (_ & H).
    + vm_compute. reflexivity.
    + reflexivity.
    + intros r. vm_compute. intros [<-|[<-|[]]]; simpl; intros H;
        discriminate.
    + apply H.
      * reflexivity.
      * intros t E. injection E as <-. reflexivity.
      * intros q E. injection E as <-. reflexivity.
      * reflexivity.
  - apply H2. exact roster_pk_unique.
Defined.

(** Submitting to n1 the values it already has succeeds and leaves the row,
    and its version 1, as created (C2 as stated fails here: no increase, and
    the version of a new row is 1). *)
Lemma edit_player_unchanged_keeps_version :
  Orm.get Roster.db 1 = Some Roster.n1 /\
  Player.Version Roster.n1 = 1 /\
  edit_player Roster.db 1 (Roster.submit Roster.n1_form)
  = (Redirect index, Roster.db).
Proof. repeat split; vm_compute; reflexivity. Qed.

(** What a stored player is, seen from the answer of [add_player]. *)
Lemma insert_player_Ok (db : DB) (n : Py.str) (a : Z) (h : Py.float)
    (t q : option Z) (db' : DB) :
  Orm.insert_player db n a h t q = Ok db' ->
  db' = set_player db
          (player db ++
           [{| Player.PlayerID := Orm.next_rowid (map Player.PlayerID (player db));
               Player.Name := n; Player.Age := a;
               Player.Height := Sqlite.real h;
               Player.TeamID := t; Player.PositionID := q;
               Player.Version := 1 |}]).
Proof.
  intros H. destruct (insert_player_cases db n a h t q) as [(E & _)|[E|E]];
    congruence.
Qed.

(** C2, amended. A player is created with version 1. An update that
    succeeds and changes at least one attribute raises the stored version of
    that player by exactly 1; one that changes nothing leaves the database
    as it is. In both cases the rows of the other players, the teams and the
    positions are unchanged. *)
Theorem edit_player_version :
  (forall db req db',
     add_player db req = (Redirect index, db') ->
     exists p, player db' = player db ++ [p] /\ Player.Version p = 1) /\
  (forall db player_id req db',
     edit_player db player_id req = (Redirect index, db') ->
     exists p new,
       Orm.get db player_id = Some p /\
       edit_player_assign p (form req) = Ok new /\
       team db' = team db /\ position db' = position db /\
       filter (fun q => negb (Player.PlayerID q =? player_id)) (player db')
       = filter (fun q => negb (Player.PlayerID q =? player_id)) (player db) /\
       if Orm.modified p new
       then exists p', Orm.get db' player_id = Some p' /\
                       Player.Version p' = Player.Version p + 1
       else db' = db).
Proof.
  split.
  - intros db req db'. unfold add_player.
    destruct (Forms.PlayerForm_validate_on_submit _ _ _); [|discriminate].
    destruct (Orm.insert_player _ _ _ _ _ _) as [d|e] eqn:E; [|discriminate].
    intros H. injection H as <-. apply insert_player_Ok in E. subst d.
    simpl. eexists. split; reflexivity.
  - intros db player_id req db'. unfold edit_player.
    destruct (Orm.get_or_404 db player_id) as [[p|]|e0] eqn:Hg;
      [|discriminate|discriminate].
    apply get_or_404_inv in Hg.
    destruct (method req); [discriminate|]. unfold edit_player_POST.
    destruct (edit_player_assign p (form req)) as [new|e] eqn:Ha; simpl;
      [|discriminate].
    destruct (Orm.commit_update p new db) as [d|e] eqn:Hc; [|discriminate].
    intros H. injection H as <-.
    exists p, new. split; [exact Hg|]. split; [exact Ha|].
    apply commit_update_Ok in Hc.
    destruct (get_Some _ _ _ Hg) as [Hin Hid].
    destruct (Orm.modified p new); subst d; simpl.
    + split; [reflexivity|]. split; [reflexivity|]. split.
      * rewrite <- Hid. apply others_update_row.
      * eexists. split.
        -- unfold Orm.get. simpl. apply find_update_row. exact Hg.
        -- unfold Orm.update_row. rewrite where_pk_version_refl. reflexivity.
    + auto.
Qed.

Lemma edit_player_version_witness :
  exists p', Orm.get roster_n1_older 1 = Some p' /\ Player.Version p' = 1 + 1.
Proof.
  destruct (proj2 edit_player_version Roster.db 1 (Roster.submit n1_older)
              roster_n1_older)
    as (p & new & Hg & Ha & _ & _ & _ & H).
  - vm_compute. reflexivity.
  - vm_compute in Hg. injection Hg as <-.
    vm_compute in Ha. injection Ha as <-.
    exact H.
Defined.

(** A POST that supplies the name alone is rejected and changes nothing, the
    name included (C3 as stated fails here). *)
Lemma edit_player_name_only_rejected :
  edit_player Roster.db 1 (Roster.submit [("name", "renamed")])
  = (Flash_redirect (BadRequestKeyError "age") (edit_player_page 1), Roster.db).
Proof. vm_compute. reflexivity. Qed.

(** A field of the form that is there and converts. *)
Ltac supplied Hpre key v Hv Hc :=
  destruct (Hpre key ltac:(simpl; tauto)) as (v & Hv & Hc);
  unfold convertible in Hc; simpl in Hc.

(** C3, amended. [edit_player] takes the five fields together. A POST for
    an existing player that omits any of them is rejected and the database
    stays as it is: with the [BadRequestKeyError] of the first omitted field
    when every field before it is there and converts, and in general with
    that of an omitted field or with [ValueError]. A POST that supplies all
    five with values the conversions accept and the engine can store
    (integers within the 64 bits, also the next version, and a height that
    is not NaN) succeeds, and afterwards the player has the supplied name,
    age, team id and position id, and the supplied height as the engine
    reads it back (the stored one when the two are equal as floats). *)
Theorem edit_player_all_fields (db : DB) (player_id : Z) (req : request)
    (p : Player.t) :
  method req = POST ->
  Orm.get db player_id = Some p ->
  pk_unique db ->
  ((exists k, In k edit_fields /\ form_get (form req) k = None) ->
   exists e,
     (e = ValueError \/
      exists k, In k edit_fields /\ form_get (form req) k = None /\
                e = BadRequestKeyError k) /\
     edit_player db player_id req
     = (Flash_redirect e (edit_player_page player_id), db)) /\
  (forall pre k post,
     edit_fields = pre ++ k :: post ->
     (forall k', In k' pre ->
                 exists v, form_get (form req) k' = Some v /\ convertible k' v) ->
     form_get (form req) k = None ->
     edit_player db player_id req
     = (Flash_redirect (BadRequestKeyError k) (edit_player_page player_id), db)) /\
  (forall name a age h height t team q position,
     form_get (form req) "name" = Some name ->
     form_get (form req) "age" = Some a -> Py.int a = Some age ->
     form_get (form req) "height" = Some h ->
     Py.float_of_str h = Some height ->
     form_get (form req) "team" = Some t -> Py.int t = Some team ->
     form_get (form req) "position" = Some q -> Py.int q = Some position ->
     Sqlite.int64 age = true -> height <> S754_nan ->
     Sqlite.int64 team = true -> Sqlite.int64 position = true ->
     Sqlite.int64 (Player.Version p + 1) = true ->
     exists db' p',
       edit_player db player_id req = (Redirect index, db') /\
       Orm.get db' player_id = Some p' /\
       Player.Name p' = name /\
       Player.Age p' = age /\
       Player.Height p' = (if Py.feqb height (Player.Height p)
                           then Player.Height p else Sqlite.real height) /\
       Player.TeamID p' = Some team /\
       Player.PositionID p' = Some position).
Proof.
  intros Hm Hg Hpk. unfold edit_player.
  rewrite (get_or_404_Some _ _ _ Hg), Hm.
  unfold edit_player_POST. split; [|split].
  - intros (k & Hk & Hnone).
    destruct (edit_player_assign p (form req)) as [new|e] eqn:Ha; simpl.
    + exfalso. apply edit_player_assign_Ok in Ha.
      destruct Ha as (name & a & age & h & height & t & team & q & position &
                      H1 & H2 & _ & H3 & _ & H4 & _ & H5 & _).
      unfold edit_fields in Hk. simpl in Hk.
      destruct Hk as [<-|[<-|[<-|[<-|[<-|[]]]]]]; congruence.
    + exists e. split; [|reflexivity].
      exact (edit_player_assign_Raise _ _ _ Ha).
  - intros pre k post Hsplit Hpre Hnone.
    unfold edit_fields in Hsplit.
    unfold edit_player_assign, form_getitem.
    destruct pre as [|k1 [|k2 [|k3 [|k4 [|k5 pre]]]]]; simpl in Hsplit;
      injection Hsplit; intros; subst.
    + rewrite Hnone. reflexivity.
    + supplied Hpre "name" v1 Hv1 Hc1.
      rewrite Hv1, Hnone. reflexivity.
    + supplied Hpre "name" v1 Hv1 Hc1. supplied Hpre "age" v2 Hv2 Hc2.
      rewrite Hv1, Hv2, Hnone. simpl.
      destruct (Py.int v2); [reflexivity|contradiction].
    + supplied Hpre "name" v1 Hv1 Hc1. supplied Hpre "age" v2 Hv2 Hc2.
      supplied Hpre "height" v3 Hv3 Hc3.
      rewrite Hv1, Hv2, Hv3, Hnone. simpl.
      destruct (Py.int v2); [|contradiction]. simpl.
      destruct (Py.float_of_str v3); [reflexivity|contradiction].
    + supplied Hpre "name" v1 Hv1 Hc1. supplied Hpre "age" v2 Hv2 Hc2.
      supplied Hpre "height" v3 Hv3 Hc3. supplied Hpre "team" v4 Hv4 Hc4.
      rewrite Hv1, Hv2, Hv3, Hv4, Hnone. simpl.
      destruct (Py.int v2); [|contradiction]. simpl.
      destruct (Py.float_of_str v3); [|contradiction]. simpl.
      destruct (Py.int v4); [reflexivity|contradiction].
    + destruct pre; discriminate.
  - intros name a age h height t team q position H1 H2 Ha H3 Hh H4 Ht H5 Hq
      Rage Rheight Rteam Rposition Rversion.
    assert (Hn : edit_player_assign p (form req)
                 = Ok {| Player.PlayerID := Player.PlayerID p;
                         Player.Name := name; Player.Age := age;
                         Player.Height := height;
                         Player.TeamID := Some team;
                         Player.PositionID := Some position;
                         Player.Version := Player.Version p |}).
    { apply edit_player_assign_Ok.
      exists name, a, age, h, height, t, team, q, position.
      repeat split; assumption. }
    rewrite Hn. simpl. set (new := Player.Build_t _ _ _ _ _ _ _) in *.
    destruct (get_Some _ _ _ Hg) as [Hin Hid].
    unfold Orm.commit_update.
    rewrite (update_ints_bound p new Rage).
    2:{ intros x E. injection E as <-. exact Rteam. }
    2:{ intros x E. injection E as <-. exact Rposition. }
    2:{ exact Rversion. }
    rewrite (rowcount_stored _ _ Hpk Hin).
    assert (Hnull : Sqlite.null_real (Player.Height new) = false).
    { change (Player.Height new) with height.
      destruct height; try reflexivity. contradiction. }
    rewrite Hnull, andb_false_r. cbn [bind Nat.eqb].
    assert (Hname : (if Orm.Name_changed p new then name else Player.Name p)
                    = name).
    { unfold Orm.Name_changed. simpl.
      destruct (String.eqb name (Player.Name p)) eqn:E; simpl; [|reflexivity].
      apply String.eqb_eq in E. congruence. }
    assert (Hage : (if Orm.Age_changed p new then age else Player.Age p) = age).
    { unfold Orm.Age_changed. simpl.
      destruct (age =? Player.Age p) eqn:E; simpl; [|reflexivity].
      apply Z.eqb_eq in E. congruence. }
    assert (Hheight : (if Orm.Height_changed p new then Sqlite.real height
                       else Player.Height p)
                      = (if Py.feqb height (Player.Height p)
                         then Player.Height p else Sqlite.real height)).
    { unfold Orm.Height_changed. simpl.
      destruct (Py.feqb height (Player.Height p)); reflexivity. }
    assert (Hteam : (if Orm.TeamID_changed p new then Some team
                     else Player.TeamID p) = Some team).
    { unfold Orm.TeamID_changed. change (Player.TeamID new) with (Some team).
      destruct (Orm.opt_eqb (Some team) (Player.TeamID p)) eqn:E; simpl;
        [|reflexivity].
      apply opt_eqb_eq in E. congruence. }
    assert (Hpos : (if Orm.PositionID_changed p new then Some position
                    else Player.PositionID p) = Some position).
    { unfold Orm.PositionID_changed.
      change (Player.PositionID new) with (Some position).
      destruct (Orm.opt_eqb (Some position) (Player.PositionID p)) eqn:E;
        simpl; [|reflexivity].
      apply opt_eqb_eq in E. congruence. }
    destruct (Orm.modified p new) eqn:Hmod.
    + eexists. exists (Orm.update_row p new p).
      split; [reflexivity|]. split.
      * unfold Orm.get. simpl. apply find_update_row. exact Hg.
      * unfold Orm.update_row. rewrite where_pk_version_refl. simpl.
        repeat split; assumption.
    + exists db, p. split; [reflexivity|]. split; [exact Hg|].
      unfold Orm.modified in Hmod.
      repeat (apply orb_false_iff in Hmod; destruct Hmod as [Hmod ?]).
      rewrite <- Hname, <- Hage, <- Hheight, <- Hteam, <- Hpos.
      repeat match goal with H : _ = false |- _ => rewrite H; clear H end.
      repeat split; reflexivity.
Qed.

(** The name alone: the age is the first field missing. All five fields,
    with the age 21: the player is stored with that age. *)
Lemma edit_player_all_fields_witness :
  edit_player Roster.db 1 (Roster.submit [("name", "renamed")])
  = (Flash_redirect (BadRequestKeyError "age") (edit_player_page 1),
     Roster.db) /\
  exists db' p',
    edit_player Roster.db 1 (Roster.submit n1_older) = (Redirect index, db') /\
    Orm.get db' 1 = Some p' /\ Player.Age p' = 21.
Proof.
  split.
  - destruct (edit_player_all_fields Roster.db 1
                (Roster.submit [("name", "renamed")]) Roster.n1
                eq_refl eq_refl roster_pk_unique) as (_ & H & _).
    apply (H ["name"] "age" ["height"; "team"; "position"]).
    + reflexivity.
    + intros k' [<-|[]]. exists "renamed". split; [reflexivity|exact I].
    + reflexivity.
  - destruct (edit_player_all_fields Roster.db 1
                (Roster.submit n1_older) Roster.n1
                eq_refl eq_refl roster_pk_unique) as (_ & _ & H).
    destruct (H "n1" "21" 21 "70.0" (Py.float_of_int 70) "1" 1 "1" 1
                eq_refl eq_refl eq_refl eq_refl eq_refl eq_refl eq_refl
                eq_refl eq_refl eq_refl ltac:(discriminate) eq_refl eq_refl
                eq_refl)
      as (db' & p' & H1 & H2 & _ & H3 & _).
    exists db', p'. repeat split; assumption.
Defined.

(** A conversion that fails makes [edit_player] answer with the flashed
    [ValueError] and leave the database as it is. *)
Lemma edit_player_invalid_number (db : DB) (player_id : Z) (req : request)
    (p : Player.t) (name a : Py.str) :
  method req = POST ->
  Orm.get db player_id = Some p ->
  form_get (form req) "name" = Some name ->
  form_get (form req) "age" = Some a ->
  (Py.int a = None \/
   exists h, form_get (form req) "height" = Some h /\
             Py.float_of_str h = None) ->
  edit_player db player_id req
  = (Flash_redirect ValueError (edit_player_page player_id), db).
Proof.
  intros Hm Hg Hn Ha H. unfold edit_player.
  rewrite (get_or_404_Some _ _ _ Hg), Hm.
  unfold edit_player_POST, edit_player_assign, form_getitem.
  rewrite Hn, Ha. simpl.
  destruct H as [Hi|(h & Hh & Hf)].
  - rewrite Hi. reflexivity.
  - destruct (Py.int a); [|reflexivity]. simpl. rewrite Hh. simpl.
    rewrite Hf. reflexivity.
Qed.

(** C4. The age and the height are checked by the two conversions, the
    team is not: a POST naming team 99, which does not exist, is committed,
    and the player then refers to a team that is not there. *)
Theorem edit_player_dangling_team :
  exists db' p',
    edit_player Roster.db 1
      (Roster.submit [("name", "n1"); ("age", "20"); ("height", "70.0");
                      ("team", "99"); ("position", "1")])
    = (Redirect index, db') /\
    Orm.get db' 1 = Some p' /\
    Player.TeamID p' = Some 99 /\
    ~ team_exists db' 99.
Proof.
  eexists. eexists. split; [vm_compute; reflexivity|].
  split; [vm_compute; reflexivity|]. split; [reflexivity|].
  unfold team_exists. simpl. intros [H|[]]. discriminate H.
Qed.
(* ===================================================================== *)
(** * Further properties of the handlers *)
(* ===================================================================== *)

(** ** Row ids *)

Lemma fold_left_max_le (l : list Z) (a x : Z) :
  x <= a -> x <= fold_left Z.max l a.
Proof.
  revert a. induction l as [|b l IH]; intros a H; simpl; [exact H|].
  apply IH. lia.
Qed.

Lemma fold_left_max_ge (l : list Z) (a x : Z) :
  In x l -> x <= fold_left Z.max l a.
Proof.
  revert a. induction l as [|b l IH]; intros a H; simpl; [contradiction|].
  destruct H as [->|H]; [apply fold_left_max_le; lia|apply IH; exact H].
Qed.

(** The rowid of a new row is above every rowid in use. *)
Lemma next_rowid_above (ids : list Z) (i : Z) :
  In i ids -> i < Orm.next_rowid ids.
Proof.
  destruct ids as [|a r]; simpl; [contradiction|].
  intros [->|H].
  - pose proof (fold_left_max_le r i i (Z.le_refl i)). lia.
  - pose proof (fold_left_max_ge r a i H). lia.
Qed.

Lemma next_rowid_fresh (ids : list Z) : ~ In (Orm.next_rowid ids) ids.
Proof. intros H. apply next_rowid_above in H. lia. Qed.

Lemma NoDup_snoc {A : Type} (l : list A) (x : A) :
  NoDup l -> ~ In x l -> NoDup (l ++ [x]).
Proof.
  induction l as [|a l IH]; simpl; intros Hnd Hx.
  - constructor; [intros []|constructor].
  - inversion Hnd as [|b m Ha Hl]. subst b m. constructor.
    + intros H. apply in_app_or in H. destruct H as [H|[H|[]]].
      * contradiction.
      * apply Hx. left. symmetry. exact H.
    + apply IH; [exact Hl|]. intros H. apply Hx. right. exact H.
Qed.

Lemma NoDup_map_filter {A B : Type} (f : A -> B) (g : A -> bool) (l : list A) :
  NoDup (map f l) -> NoDup (map f (filter g l)).
Proof.
  induction l as [|a l IH]; simpl; intros H; [constructor|].
  inversion H as [|b m Ha Hl]. subst b m.
  destruct (g a); simpl; [|apply IH; exact Hl].
  constructor; [|apply IH; exact Hl].
  intros Hin. apply Ha. apply in_map_iff in Hin.
  destruct Hin as (x & Hx & Hin). apply filter_In in Hin.
  rewrite <- Hx. apply in_map. tauto.
Qed.

Lemma NoDup_map_inj {A B : Type} (f : A -> B) (l : list A) (x y : A) :
  NoDup (map f l) -> In x l -> In y l -> f x = f y -> x = y.
Proof.
  induction l as [|a l IH]; simpl; intros Hnd Hx Hy E; [contradiction|].
  inversion Hnd as [|b m Ha Hl]. subst b m.
  destruct Hx as [->|Hx], Hy as [->|Hy].
  - reflexivity.
  - exfalso. apply Ha. rewrite E. apply in_map. exact Hy.
  - exfalso. apply Ha. rewrite <- E. apply in_map. exact Hx.
  - apply IH; assumption.
Qed.

Lemma find_none_iff (rows : list Player.t) (player_id : Z) :
  find (fun r => Player.PlayerID r =? player_id) rows = None <->
  ~ In player_id (map Player.PlayerID rows).
Proof.
  induction rows as [|a rows IH]; simpl; [tauto|].
  destruct (Player.PlayerID a =? player_id) eqn:E.
  - apply Z.eqb_eq in E. split; [discriminate|]. intros H. exfalso. auto.
  - apply Z.eqb_neq in E. rewrite IH. tauto.
Qed.

Lemma find_snoc_old (rows : list Player.t) (p q : Player.t) (player_id : Z) :
  find (fun r => Player.PlayerID r =? player_id) rows = Some q ->
  find (fun r => Player.PlayerID r =? player_id) (rows ++ [p]) = Some q.
Proof.
  induction rows as [|a rows IH]; simpl; [discriminate|].
  destruct (Player.PlayerID a =? player_id); [trivial|exact IH].
Qed.

Lemma find_snoc_new (rows : list Player.t) (p : Player.t) :
  ~ In (Player.PlayerID p) (map Player.PlayerID rows) ->
  find (fun r => Player.PlayerID r =? Player.PlayerID p) (rows ++ [p]) = Some p.
Proof.
  induction rows as [|a rows IH]; simpl; intros H.
  - rewrite Z.eqb_refl. reflexivity.
  - destruct (Player.PlayerID a =? Player.PlayerID p) eqn:E.
    + apply Z.eqb_eq in E. exfalso. auto.
    + apply IH. tauto.
Qed.

(** Rows whose id is not the one loaded are outside the WHERE clause. *)
Lemma filter_other_ids (loaded : Player.t) (rows : list Player.t) :
  ~ In (Player.PlayerID loaded) (map Player.PlayerID rows) ->
  filter (Orm.where_pk_version loaded) rows = [] /\
  filter (fun r => negb (Orm.where_pk_version loaded r)) rows = rows.
Proof.
  induction rows as [|a rows IH]; simpl; intros H; [auto|].
  assert (E : Orm.where_pk_version loaded a = false).
  { unfold Orm.where_pk_version.
    destruct (Player.PlayerID a =? Player.PlayerID loaded) eqn:E;
      [|reflexivity].
    apply Z.eqb_eq in E. exfalso. auto. }
  rewrite E. simpl. destruct IH as [IH1 IH2]; [tauto|].
  rewrite IH1, IH2. auto.
Qed.

(** Under the primary key the WHERE clause of a stored row selects by id
    alone. *)
Lemma where_pk_version_stored (rows : list Player.t) (p r : Player.t) :
  NoDup (map Player.PlayerID rows) -> In p rows -> In r rows ->
  Orm.where_pk_version p r = (Player.PlayerID r =? Player.PlayerID p).
Proof.
  intros Hnd Hp Hr. unfold Orm.where_pk_version.
  destruct (Player.PlayerID r =? Player.PlayerID p) eqn:E; [|reflexivity].
  apply Z.eqb_eq in E.
  rewrite (NoDup_map_inj Player.PlayerID rows r p Hnd Hr Hp E).
  rewrite Z.eqb_refl. reflexivity.
Qed.

Lemma set_player_same (db : DB) : set_player db (player db) = db.
Proof. destruct db; reflexivity. Qed.

(** ** The seeding hook *)

(** X1. [run_once] never touches the teams and the players; it leaves a
    position table that has a row as it is, fills an empty one with the four
    default positions under the ids 1 to 4, and running it again changes
    nothing more. *)
Theorem run_once_seeds_once (db : DB) :
  team (run_once db) = team db /\
  player (run_once db) = player db /\
  position (run_once db) <> [] /\
  (position db <> [] -> run_once db = db) /\
  (position db = [] ->
   map Position.PositionName (position (run_once db)) = default_positions /\
   map Position.PositionID (position (run_once db)) = [1; 2; 3; 4]) /\
  run_once (run_once db) = run_once db.
Proof.
  destruct db as [ts ps pl]. unfold run_once. simpl.
  destruct ps as [|p ps]; simpl;
    repeat split; try reflexivity; try discriminate;
    intros H; try discriminate H; contradiction.
Qed.

Lemma run_once_seeds_once_witness :
  run_once Roster.db = Roster.db /\
  map Position.PositionID
      (position (run_once {| team := []; position := []; player := [] |}))
  = [1; 2; 3; 4].
Proof.
  destruct (run_once_seeds_once Roster.db) as (_ & _ & _ & Hkeep & _).
  destruct (run_once_seeds_once {| team := []; position := []; player := [] |})
    as (_ & _ & _ & _ & Hseed & _).
  split.
  - apply Hkeep. rewrite roster_db. discriminate.
  - apply Hseed. reflexivity.
Defined.

(** ** Deleting a player *)

Lemma get_filtered_out (db : DB) (player_id : Z) :
  Orm.get
    (set_player db
       (filter (fun r => negb (Player.PlayerID r =? player_id)) (player db)))
    player_id = None.
Proof.
  unfold Orm.get. simpl. apply find_none_iff. intros H.
  apply in_map_iff in H. destruct H as (r & Hid & Hin).
  apply filter_In in Hin. destruct Hin as [_ Hin].
  rewrite Hid, Z.eqb_refl in Hin. discriminate.
Qed.

Lemma delete_player_stored (db : DB) (player_id : Z) (p : Player.t) :
  pk_unique db ->
  Orm.get db player_id = Some p ->
  delete_player db player_id
  = (Redirect index,
     set_player db
       (filter (fun r => negb (Player.PlayerID r =? player_id)) (player db))).
Proof.
  intros Hpk Hg. unfold delete_player. rewrite (get_or_404_Some _ _ _ Hg).
  destruct (get_Some _ _ _ Hg) as [Hin Hid].
  unfold Orm.commit_delete. rewrite (rowcount_stored _ _ Hpk Hin). simpl.
  f_equal. f_equal. apply filter_ext_in. intros r Hr.
  rewrite (where_pk_version_stored _ _ _ Hpk Hin Hr), Hid. reflexivity.
Qed.

(** X2. On a table with unique ids, [delete_player] changes nothing when
    the id is not stored, and answers 404, or fails with an unhandled
    [OverflowError] when the id is beyond the 64 bits; otherwise it removes
    the row with that id and no other row, in place. Either way the id is
    not stored afterwards, so a second [delete_player] of the same id is
    answered in the first way. *)
Theorem delete_player_removes (db : DB) (player_id : Z) :
  pk_unique db ->
  (Orm.get db player_id = None ->
   delete_player db player_id
   = (if Sqlite.int64 player_id then Abort404 else Unhandled OverflowError,
      db)) /\
  (forall p, Orm.get db player_id = Some p ->
     delete_player db player_id
     = (Redirect index,
        set_player db
          (filter (fun r => negb (Player.PlayerID r =? player_id))
                  (player db)))) /\
  Orm.get (snd (delete_player db player_id)) player_id = None /\
  delete_player (snd (delete_player db player_id)) player_id
  = (if Sqlite.int64 player_id then Abort404 else Unhandled OverflowError,
     snd (delete_player db player_id)).
Proof.
  intros Hpk.
  assert (Hnone : forall d, Orm.get d player_id = None ->
                  delete_player d player_id
                  = (if Sqlite.int64 player_id then Abort404
                     else Unhandled OverflowError, d)).
  { intros d H. unfold delete_player. rewrite (get_or_404_None _ _ H).
    destruct (Sqlite.int64 player_id); reflexivity. }
  assert (Hafter : Orm.get (snd (delete_player db player_id)) player_id = None).
  { destruct (Orm.get db player_id) as [p|] eqn:Hg.
    - rewrite (delete_player_stored db player_id p Hpk Hg). simpl.
      apply get_filtered_out.
    - rewrite (Hnone db Hg). exact Hg. }
  split; [exact (Hnone db)|]. split.
  - intros p Hg. apply (delete_player_stored db player_id p Hpk Hg).
  - split; [exact Hafter|]. apply Hnone. exact Hafter.
Qed.

(** Player 1 is removed; player 5 is not there; neither is player 2^63,
    which cannot even be looked up. *)
Lemma delete_player_removes_witness :
  delete_player Roster.db 1
  = (Redirect index, set_player Roster.db [Roster.n2]) /\
  delete_player Roster.db 5 = (Abort404, Roster.db) /\
  delete_player Roster.db (2 ^ 63) = (Unhandled OverflowError, Roster.db).
Proof.
  destruct (delete_player_removes Roster.db 1 roster_pk_unique)
    as (_ & H & _).
  destruct (delete_player_removes Roster.db 5 roster_pk_unique)
    as (H5 & _).
  destruct (delete_player_removes Roster.db (2 ^ 63) roster_pk_unique)
    as (Hbig & _).
  split; [|split].
  - rewrite (H Roster.n1); vm_compute; reflexivity.
  - apply H5. vm_compute. reflexivity.
  - apply Hbig. vm_compute. reflexivity.
Defined.

(** ** Creating a player, and deleting it again *)

(** The fields of a request [PlayerForm] accepts. *)
Lemma PlayerForm_valid (req : request) (tc pc : list (Z * Py.str))
    (f : Forms.PlayerForm) :
  Forms.PlayerForm_validate_on_submit req tc pc = Some f ->
  method req = POST /\ csrf_valid req = true /\
  form_get (form req) "name" = Some (Forms.name f) /\ Forms.name f <> "" /\
  (exists a, form_get (form req) "age" = Some a /\
             Py.int a = Some (Forms.age f)) /\
  (exists h, form_get (form req) "height" = Some h /\
             Py.float_of_str h = Some (Forms.height f)) /\
  (exists t, form_get (form req) "team" = Some t /\
             Py.int t = Some (Forms.team f)) /\
  (exists q, form_get (form req) "position" = Some q /\
             Py.int q = Some (Forms.position f)) /\
  In (Forms.team f) (map fst tc) /\ In (Forms.position f) (map fst pc).
Proof.
  unfold Forms.PlayerForm_validate_on_submit.
  destruct (method req); [discriminate|].
  destruct (csrf_valid req); [|discriminate].
  destruct (Forms.StringField _) as [n|] eqn:En; [|discriminate].
  destruct (Forms.IntegerField _) as [a|] eqn:Ea; [|discriminate].
  destruct (Forms.FloatField _) as [h|] eqn:Eh; [|discriminate].
  destruct (Forms.SelectField tc _) as [t|] eqn:Et; [|discriminate].
  destruct (Forms.SelectField pc _) as [q|] eqn:Eq; [|discriminate].
  intros H. injection H as <-. simpl.
  split; [reflexivity|]. split; [reflexivity|].
  unfold Forms.StringField, Forms.InputRequired in En.
  destruct (form_get (form req) "name") as [v|]; [|discriminate].
  destruct (String.eqb v "") eqn:Ev; [discriminate|]. simpl in En.
  injection En as ->. apply String.eqb_neq in Ev.
  split; [reflexivity|]. split; [exact Ev|].
  unfold Forms.IntegerField, Forms.InputRequired in Ea.
  destruct (form_get (form req) "age") as [va|]; [|discriminate].
  destruct (negb (String.eqb va "")); [|discriminate].
  split; [exists va; auto|].
  unfold Forms.FloatField, Forms.InputRequired in Eh.
  destruct (form_get (form req) "height") as [vh|]; [|discriminate].
  destruct (negb (String.eqb vh "")); [|discriminate].
  split; [exists vh; auto|].
  pose proof (SelectField_in _ _ _ Et) as Hti.
  pose proof (SelectField_in _ _ _ Eq) as Hqi.
  unfold Forms.SelectField in Et, Eq.
  destruct (form_get (form req) "team") as [vt|]; [|discriminate].
  destruct (Py.int vt) as [nt|] eqn:Ent; [|discriminate].
  destruct (existsb _ tc); [|discriminate]. injection Et as ->.
  destruct (form_get (form req) "position") as [vq|]; [|discriminate].
  destruct (Py.int vq) as [nq|] eqn:Enq; [|discriminate].
  destruct (existsb _ pc); [|discriminate]. injection Eq as ->.
  split; [exists vt; auto|]. split; [exists vq; auto|]. auto.
Qed.

(** What [add_player] stored when it answers with the redirect. *)
Lemma add_player_Redirect (db : DB) (req : request) (db' : DB) :
  add_player db req = (Redirect index, db') ->
  exists f,
    Forms.PlayerForm_validate_on_submit req
      (map (fun t => (Team.TeamID t, Team.TeamName t)) (team db))
      (map (fun p => (Position.PositionID p, Position.PositionName p))
           (position db)) = Some f /\
    Sqlite.null_real (Forms.height f) = false /\
    Sqlite.int64 (Forms.age f) = true /\
    db' = set_player db
            (player db ++
             [{| Player.PlayerID :=
                   Orm.next_rowid (map Player.PlayerID (player db));
                 Player.Name := Forms.name f; Player.Age := Forms.age f;
                 Player.Height := Sqlite.real (Forms.height f);
                 Player.TeamID := Some (Forms.team f);
                 Player.PositionID := Some (Forms.position f);
                 Player.Version := 1 |}]).
Proof.
  unfold add_player.
  destruct (Forms.PlayerForm_validate_on_submit _ _ _) as [f|]; [|discriminate].
  destruct (insert_player_cases db (Forms.name f) (Forms.age f)
              (Forms.height f) (Some (Forms.team f))
              (Some (Forms.position f))) as [(E & Hn & Ha)|[E|E]];
    rewrite E; [|discriminate|discriminate].
  intros H. injection H as <-. exists f. auto.
Qed.

(** X3. A player that [add_player] has just stored is found under the next
    free rowid, with version 1 and with the name, age, height, team id and
    position id the form carried: the age is within the 64 bits, and the
    height is not NaN and is stored as the engine reads it back, a negative
    zero as zero. Every player found before is found unchanged. *)
Theorem add_player_stores_form (db : DB) (req : request) (db' : DB) :
  add_player db req = (Redirect index, db') ->
  exists p,
    Orm.get db' (Orm.next_rowid (map Player.PlayerID (player db))) = Some p /\
    Player.Version p = 1 /\
    form_get (form req) "name" = Some (Player.Name p) /\
    (exists a, form_get (form req) "age" = Some a /\
               Py.int a = Some (Player.Age p) /\
               Sqlite.int64 (Player.Age p) = true) /\
    (exists h x, form_get (form req) "height" = Some h /\
                 Py.float_of_str h = Some x /\ x <> S754_nan /\
                 Player.Height p = Sqlite.real x) /\
    (exists t n, form_get (form req) "team" = Some t /\
                 Py.int t = Some n /\ Player.TeamID p = Some n) /\
    (exists q n, form_get (form req) "position" = Some q /\
                 Py.int q = Some n /\ Player.PositionID p = Some n) /\
    (forall id q, Orm.get db id = Some q -> Orm.get db' id = Some q).
Proof.
  intros H. apply add_player_Redirect in H.
  destruct H as (f & Hv & Hnull & Hage & ->).
  apply PlayerForm_valid in Hv.
  destruct Hv as (_ & _ & Hn & _ & (a & Ha1 & Ha2) & (h & Hh1 & Hh2) &
                  (t & Ht1 & Ht2) & (q & Hq1 & Hq2) & _).
  eexists. split.
  - unfold Orm.get. simpl.
    apply (find_snoc_new (player db)
             {| Player.PlayerID := Orm.next_rowid (map Player.PlayerID (player db));
                Player.Name := Forms.name f; Player.Age := Forms.age f;
                Player.Height := Sqlite.real (Forms.height f);
                Player.TeamID := Some (Forms.team f);
                Player.PositionID := Some (Forms.position f);
                Player.Version := 1 |}).
    apply next_rowid_fresh.
  - simpl. split; [reflexivity|]. split; [exact Hn|].
    split; [exists a; auto|].
    split.
    { exists h, (Forms.height f). repeat split; auto.
      intros E. rewrite E in Hnull. discriminate. }
    split; [exists t, (Forms.team f); auto|].
    split; [exists q, (Forms.position f); auto|].
    intros id q0 Hg. unfold Orm.get in *. simpl.
    apply find_snoc_old. exact Hg.
Qed.

(** n1 is stored under id 1 with the height 70.0; a player sent with the
    height -0.0 is stored with the height 0.0. *)
Lemma add_player_stores_form_witness :
  (exists p, Orm.get Roster.with_n1 1 = Some p /\ Player.Version p = 1 /\
             Player.Height p = Py.float_of_int 70) /\
  exists db' p,
    add_player Roster.with_team (Roster.submit Roster.flat_form)
    = (Redirect index, db') /\
    Orm.get db' 1 = Some p /\ Player.Height p = S754_zero false.
Proof.
  split.
  - destruct (add_player_stores_form Roster.with_team
                (Roster.submit Roster.n1_form) Roster.with_n1)
      as (p & Hg & Hv & _ & _ & (h & x & Hh & Hx & _ & Hp) & _).
    + vm_compute. reflexivity.
    + exists p. split; [exact Hg|]. split; [exact Hv|].
      vm_compute in Hh. injection Hh as <-.
      vm_compute in Hx. injection Hx as <-. exact Hp.
  - destruct (add_player Roster.with_team (Roster.submit Roster.flat_form))
      as [r db'] eqn:E.
    assert (Hr : r = Redirect index)
      by (vm_compute in E; injection E as <- _; reflexivity).
    subst r.
    destruct (add_player_stores_form Roster.with_team
                (Roster.submit Roster.flat_form) db' E)
      as (p & Hg & _ & _ & _ & (h & x & Hh & Hx & _ & Hp) & _).
    exists db', p. split; [reflexivity|]. split; [exact Hg|].
    vm_compute in Hh. injection Hh as <-.
    vm_compute in Hx. injection Hx as <-. exact Hp.
Defined.

(** X4. Deleting the player [add_player] has just stored gives back the
    database as it was before the two requests. *)
Theorem add_then_delete_player (db : DB) (req : request) (db' : DB) :
  add_player db req = (Redirect index, db') ->
  delete_player db' (Orm.next_rowid (map Player.PlayerID (player db)))
  = (Redirect index, db).
Proof.
  intros H. apply add_player_Redirect in H. destruct H as (f & _ & _ & _ & ->).
  set (p := Player.Build_t _ _ _ _ _ _ _).
  assert (Hfresh : ~ In (Player.PlayerID p) (map Player.PlayerID (player db)))
    by exact (next_rowid_fresh (map Player.PlayerID (player db))).
  change (Orm.next_rowid (map Player.PlayerID (player db)))
    with (Player.PlayerID p).
  unfold delete_player, Orm.get_or_404, Orm.get. simpl player.
  rewrite (find_snoc_new _ p Hfresh).
  unfold Orm.commit_delete, Orm.rowcount. simpl.
  rewrite !filter_app. destruct (filter_other_ids p (player db) Hfresh)
    as [E1 E2].
  rewrite E1, E2. simpl. rewrite where_pk_version_refl. simpl.
  rewrite app_nil_r. destruct db; reflexivity.
Qed.

Lemma add_then_delete_player_witness :
  delete_player Roster.db 2 = (Redirect index, Roster.with_n1).
Proof.
  apply (add_then_delete_player Roster.with_n1 (Roster.submit Roster.n2_form)
           Roster.db).
  vm_compute. reflexivity.
Defined.

(** ** The rows after a handler *)

Lemma add_player_rows (db : DB) (req : request) :
  snd (add_player db req) = db \/
  exists f,
    Forms.PlayerForm_validate_on_submit req
      (map (fun t => (Team.TeamID t, Team.TeamName t)) (team db))
      (map (fun p => (Position.PositionID p, Position.PositionName p))
           (position db)) = Some f /\
    snd (add_player db req)
    = set_player db
        (player db ++
         [{| Player.PlayerID :=
               Orm.next_rowid (map Player.PlayerID (player db));
             Player.Name := Forms.name f; Player.Age := Forms.age f;
             Player.Height := Sqlite.real (Forms.height f);
             Player.TeamID := Some (Forms.team f);
             Player.PositionID := Some (Forms.position f);
             Player.Version := 1 |}]).
Proof.
  destruct (add_player db req) as [resp db'] eqn:E.
  assert (Hr : resp = Redirect index \/ db' = db).
  { unfold add_player in E.
    destruct (Forms.PlayerForm_validate_on_submit _ _ _);
      [|injection E as <- <-; auto].
    destruct (Orm.insert_player _ _ _ _ _ _); injection E as <- <-; auto. }
  destruct Hr as [-> | ->]; [|left; reflexivity].
  apply add_player_Redirect in E. destruct E as (f & Hv & _ & _ & ->).
  right. exists f. auto.
Qed.

Lemma delete_team_rows (db : DB) (team_id : Z) :
  snd (delete_team db team_id) = db \/
  snd (delete_team db team_id)
  = Orm.delete_team_where_TeamID (Orm.delete_player_where_TeamID db team_id)
      team_id.
Proof.
  unfold delete_team. rewrite bind_one.
  destruct (Sqlite.int64 team_id); simpl; auto.
Qed.

Lemma delete_player_rows (db : DB) (player_id : Z) :
  snd (delete_player db player_id) = db \/
  exists p,
    snd (delete_player db player_id)
    = set_player db
        (filter (fun r => negb (Orm.where_pk_version p r)) (player db)).
Proof.
  unfold delete_player.
  destruct (Orm.get_or_404 db player_id) as [[p|]|e]; auto.
  unfold Orm.commit_delete. destruct (Nat.eqb _ 1); simpl; auto.
  right. exists p. reflexivity.
Qed.

(** ** What [edit_player] leaves alone *)

Lemma edit_player_rows (db : DB) (player_id : Z) (req : request) :
  snd (edit_player db player_id req) = db \/
  exists p new,
    Orm.get db player_id = Some p /\
    edit_player_assign p (form req) = Ok new /\
    edit_player db player_id req
    = (Redirect index,
       set_player db (map (Orm.update_row p new) (player db))).
Proof.
  unfold edit_player.
  destruct (Orm.get_or_404 db player_id) as [[p|]|e0] eqn:Hg;
    [|left; reflexivity|left; reflexivity].
  apply get_or_404_inv in Hg.
  destruct (method req); [left; reflexivity|].
  unfold edit_player_POST.
  destruct (edit_player_assign p (form req)) as [new|e] eqn:Ha; simpl;
    [|left; reflexivity].
  destruct (Orm.commit_update p new db) as [d|e] eqn:Hc; [|left; reflexivity].
  apply commit_update_Ok in Hc.
  destruct (Orm.modified p new); subst d; [|left; reflexivity].
  right. exists p, new. auto.
Qed.

Lemma update_row_version (loaded new r : Player.t) :
  Player.Version r <= Player.Version (Orm.update_row loaded new r).
Proof.
  unfold Orm.update_row, Orm.where_pk_version.
  destruct (Player.PlayerID r =? Player.PlayerID loaded); simpl; [|lia].
  destruct (Player.Version r =? Player.Version loaded) eqn:E; simpl; [|lia].
  apply Z.eqb_eq in E. lia.
Qed.

Lemma Forall2_map_r {A : Type} (R : A -> A -> Prop) (f : A -> A)
    (l : list A) :
  (forall x, R x (f x)) -> Forall2 R l (map f l).
Proof.
  intros H. induction l as [|a l IH]; simpl; constructor; [apply H|exact IH].
Qed.

(** The rows after [edit_player]: the same ids in the same places, no
    version lower. *)
Lemma edit_player_rows_kept (db : DB) (player_id : Z) (req : request) :
  Forall2 (fun r r' => Player.PlayerID r' = Player.PlayerID r /\
                       Player.Version r <= Player.Version r')
          (player db) (player (snd (edit_player db player_id req))).
Proof.
  destruct (edit_player_rows db player_id req) as [E|(p & new & _ & _ & E)];
    rewrite E; simpl.
  - rewrite <- (map_id (player db)) at 2. apply Forall2_map_r.
    intros x. split; [reflexivity|lia].
  - apply Forall2_map_r. intros x.
    split; [apply update_row_id|apply update_row_version].
Qed.

Lemma edit_player_ids (db : DB) (player_id : Z) (req : request) :
  map Player.PlayerID (player (snd (edit_player db player_id req)))
  = map Player.PlayerID (player db).
Proof.
  pose proof (edit_player_rows_kept db player_id req) as H.
  induction H as [|r r' l l' [E _] _ IH]; simpl; [reflexivity|].
  rewrite E, IH. reflexivity.
Qed.

(** X5. Whatever the request, [edit_player] leaves the teams and the
    positions as they are, adds and removes no player row, keeps every row
    under its id and lowers no version; and unless it answers with the
    redirect to the index the database is exactly what it was. *)
Theorem edit_player_frame (db : DB) (player_id : Z) (req : request) :
  team (snd (edit_player db player_id req)) = team db /\
  position (snd (edit_player db player_id req)) = position db /\
  Forall2 (fun r r' => Player.PlayerID r' = Player.PlayerID r /\
                       Player.Version r <= Player.Version r')
          (player db) (player (snd (edit_player db player_id req))) /\
  (fst (edit_player db player_id req) <> Redirect index ->
   snd (edit_player db player_id req) = db).
Proof.
  split; [|split; [|split; [apply edit_player_rows_kept|]]];
    destruct (edit_player_rows db player_id req) as [E|(p & new & _ & _ & E)];
    rewrite E; simpl; try reflexivity.
  intros H. exfalso. apply H. reflexivity.
Qed.

Lemma edit_player_frame_witness :
  snd (edit_player Roster.db 1 (Roster.submit [("name", "renamed")]))
  = Roster.db.
Proof.
  apply (edit_player_frame Roster.db 1 (Roster.submit [("name", "renamed")])).
  vm_compute. discriminate.
Defined.

(** ** The primary key of the players *)

(** X6. Every handler, and the hook, keeps the ids of the player table
    distinct: a new row gets a rowid above the ones in use, an update keeps
    the ids, a delete only removes rows. *)
Theorem handlers_keep_player_ids (db : DB) :
  pk_unique db ->
  (forall req, pk_unique (snd (add_player db req))) /\
  (forall req, pk_unique (snd (add_team db req))) /\
  (forall player_id req, pk_unique (snd (edit_player db player_id req))) /\
  (forall player_id, pk_unique (snd (delete_player db player_id))) /\
  (forall team_id, pk_unique (snd (delete_team db team_id))) /\
  (forall req, pk_unique (snd (remove_teams db req))) /\
  pk_unique (run_once db).
Proof.
  unfold pk_unique. intros Hpk. repeat split.
  - intros req.
    destruct (add_player_rows db req) as [E|(f & _ & E)]; rewrite E;
      [exact Hpk|].
    simpl. rewrite map_app. simpl. apply NoDup_snoc; [exact Hpk|].
    apply next_rowid_fresh.
  - intros req. unfold add_team.
    destruct (Forms.TeamForm_validate_on_submit req); [|exact Hpk].
    unfold Orm.insert_team. destruct (existsb _ (team db)); exact Hpk.
  - intros player_id req. rewrite edit_player_ids. exact Hpk.
  - intros player_id.
    destruct (delete_player_rows db player_id) as [E|(p & E)]; rewrite E;
      [exact Hpk|].
    simpl. apply NoDup_map_filter. exact Hpk.
  - intros team_id.
    destruct (delete_team_rows db team_id) as [E|E]; rewrite E; [exact Hpk|].
    simpl. apply NoDup_map_filter. exact Hpk.
  - intros req. unfold remove_teams.
    destruct (is_delete_all req); simpl; [constructor|exact Hpk].
  - destruct db as [ts ps pl]. unfold run_once. destruct ps; exact Hpk.
Qed.

Lemma handlers_keep_player_ids_witness :
  pk_unique (snd (add_player Roster.db (Roster.submit Roster.n1_form))).
Proof.
  destruct (handlers_keep_player_ids Roster.db roster_pk_unique) as (H & _).
  exact (H (Roster.submit Roster.n1_form)).
Defined.

(** ** The team table *)

Lemma existsb_name (ts : list Team.t) (name : Py.str) :
  existsb (fun t => String.eqb (Team.TeamName t) name) ts = true <->
  In name (map Team.TeamName ts).
Proof.
  rewrite existsb_exists, in_map_iff. split; intros (t & H1 & H2).
  - apply String.eqb_eq in H2. exists t. auto.
  - exists t. split; [exact H2|]. apply String.eqb_eq. exact H1.
Qed.

(** What [add_team] stored when it answers with the redirect. *)
Lemma add_team_Redirect (db : DB) (req : request) (db' : DB) :
  add_team db req = (Redirect index, db') ->
  exists name,
    Forms.TeamForm_validate_on_submit req = Some name /\
    ~ In name (map Team.TeamName (team db)) /\
    db' = set_team db
            (team db ++
             [{| Team.TeamID := Orm.next_rowid (map Team.TeamID (team db));
                 Team.TeamName := name |}]).
Proof.
  unfold add_team.
  destruct (Forms.TeamForm_validate_on_submit req) as [name|]; [|discriminate].
  unfold Orm.insert_team.
  destruct (existsb _ (team db)) eqn:E; [discriminate|].
  intros H. injection H as <-. exists name.
  split; [reflexivity|]. split; [|reflexivity].
  intros Hin. apply existsb_name in Hin. congruence.
Qed.

Lemma add_team_other (db : DB) (req : request) :
  fst (add_team db req) <> Redirect index -> snd (add_team db req) = db.
Proof.
  unfold add_team.
  destruct (Forms.TeamForm_validate_on_submit req); [|reflexivity].
  destruct (Orm.insert_team db s); simpl; [|reflexivity].
  intros H. exfalso. apply H. reflexivity.
Qed.

(** X7. The team table keeps distinct ids and distinct names: [add_team]
    stores a team only under a fresh rowid and a name not yet present,
    [delete_team] and [remove_teams] only remove rows, and [add_player],
    [edit_player], [delete_player] and [run_once] do not touch the table. *)
Theorem handlers_keep_teams_unique (db : DB) :
  team_pk_unique db -> team_names_unique db ->
  (forall req, team_pk_unique (snd (add_team db req)) /\
               team_names_unique (snd (add_team db req))) /\
  (forall team_id, team_pk_unique (snd (delete_team db team_id)) /\
                   team_names_unique (snd (delete_team db team_id))) /\
  (forall req, team_pk_unique (snd (remove_teams db req)) /\
               team_names_unique (snd (remove_teams db req))) /\
  (forall req, team (snd (add_player db req)) = team db) /\
  (forall player_id req, team (snd (edit_player db player_id req)) = team db) /\
  (forall player_id, team (snd (delete_player db player_id)) = team db) /\
  team (run_once db) = team db.
Proof.
  unfold team_pk_unique, team_names_unique. intros Hid Hname.
  split; [|split; [|split; [|split; [|split; [|split]]]]].
  - intros req.
    destruct (add_team db req) as [resp db'] eqn:E.
    assert (Hr : {resp = Redirect index} + {resp <> Redirect index}).
    { destruct resp as [[| |i]| | | |]; try (right; discriminate).
      left. reflexivity. }
    destruct Hr as [->|Hr].
    + apply add_team_Redirect in E. destruct E as (name & _ & Hnew & ->).
      simpl. rewrite !map_app. simpl.
      split; apply NoDup_snoc; auto using next_rowid_fresh.
    + pose proof (add_team_other db req) as H. rewrite E in H. simpl in *.
      rewrite (H Hr). auto.
  - intros team_id.
    destruct (delete_team_rows db team_id) as [E|E]; rewrite E; [auto|].
    simpl. split; apply NoDup_map_filter; assumption.
  - intros req. unfold remove_teams. destruct (is_delete_all req); simpl.
    + split; constructor.
    + auto.
  - intros req.
    destruct (add_player_rows db req) as [E|(f & _ & E)]; rewrite E;
      reflexivity.
  - intros player_id req.
    destruct (edit_player_rows db player_id req) as [E|(p & new & _ & _ & E)];
      rewrite E; reflexivity.
  - intros player_id.
    destruct (delete_player_rows db player_id) as [E|(p & E)]; rewrite E;
      reflexivity.
  - destruct db as [ts ps pl]. unfold run_once. destruct ps; reflexivity.
Qed.

Lemma roster_teams_unique : team_pk_unique Roster.db /\ team_names_unique Roster.db.
Proof.
  unfold team_pk_unique, team_names_unique. rewrite roster_db. simpl.
  split; repeat constructor; intros [].
Qed.

Lemma handlers_keep_teams_unique_witness :
  team_names_unique (snd (add_team Roster.db (Roster.submit [("team_name", "B")]))).
Proof.
  destruct (handlers_keep_teams_unique Roster.db (proj1 roster_teams_unique)
              (proj2 roster_teams_unique)) as (H & _).
  exact (proj2 (H (Roster.submit [("team_name", "B")]))).
Defined.

(** X8. When [add_team] has stored a team, the same request sent again
    fails with [IntegrityError] and stores nothing. *)
Theorem add_team_twice (db : DB) (req : request) (db' : DB) :
  add_team db req = (Redirect index, db') ->
  add_team db' req = (Unhandled IntegrityError, db').
Proof.
  intros H. apply add_team_Redirect in H. destruct H as (name & Hv & _ & ->).
  unfold add_team. rewrite Hv. unfold Orm.insert_team.
  replace (existsb _ _) with true; [reflexivity|].
  symmetry. apply existsb_name. simpl. rewrite map_app. apply in_or_app.
  right. left. reflexivity.
Qed.

Lemma add_team_twice_witness :
  add_team Roster.with_team (Roster.submit [("team_name", "A")])
  = (Unhandled IntegrityError, Roster.with_team).
Proof.
  apply (add_team_twice Roster.empty (Roster.submit [("team_name", "A")])).
  vm_compute. reflexivity.
Defined.

(** ** References *)

Lemma team_exists_filter (db : DB) (team_id id : Z) :
  team_exists db id -> id <> team_id ->
  In id (map Team.TeamID
             (filter (fun t => negb (Team.TeamID t =? team_id)) (team db))).
Proof.
  unfold team_exists. rewrite !in_map_iff. intros (t & Ht & Hin) Hne.
  exists t. split; [exact Ht|]. apply filter_In. split; [exact Hin|].
  rewrite Ht. apply negb_true_iff. apply Z.eqb_neq. exact Hne.
Qed.

(** X9. Every handler but [edit_player], and the hook, keeps the
    references valid: on a database in which every team reference and every
    position reference that is set names a stored row, the same holds after
    [add_player], [add_team], [delete_player], [delete_team], [remove_teams]
    and [run_once]. *)
Theorem handlers_keep_references (db : DB) :
  fk_team db -> fk_position db ->
  (forall req, fk_team (snd (add_player db req)) /\
               fk_position (snd (add_player db req))) /\
  (forall req, fk_team (snd (add_team db req)) /\
               fk_position (snd (add_team db req))) /\
  (forall player_id, fk_team (snd (delete_player db player_id)) /\
                     fk_position (snd (delete_player db player_id))) /\
  (forall team_id, fk_team (snd (delete_team db team_id)) /\
                   fk_position (snd (delete_team db team_id))) /\
  (forall req, fk_team (snd (remove_teams db req)) /\
               fk_position (snd (remove_teams db req))) /\
  fk_team (run_once db) /\ fk_position (run_once db).
Proof.
  intros Ht Hp. split; [|split; [|split; [|split; [|split]]]].
  - intros req.
    destruct (add_player_rows db req) as [E0|(f & Hv & E0)]; rewrite E0;
      [auto|]. clear E0.
    apply PlayerForm_valid in Hv.
    destruct Hv as (_ & _ & _ & _ & _ & _ & _ & _ & Hti & Hpi).
    rewrite map_map in Hti, Hpi. simpl in Hti, Hpi.
    split; intros p id Hin E; simpl in Hin; apply in_app_or in Hin;
      destruct Hin as [Hin|[<-|[]]]; simpl in E.
    + exact (Ht p id Hin E).
    + injection E as <-. exact Hti.
    + exact (Hp p id Hin E).
    + injection E as <-. exact Hpi.
  - intros req. unfold add_team.
    destruct (Forms.TeamForm_validate_on_submit req) as [name|]; [|auto].
    unfold Orm.insert_team. destruct (existsb _ (team db)); simpl; [auto|].
    split; [|exact Hp]. intros p id Hin E. unfold team_exists. simpl.
    rewrite map_app. apply in_or_app. left. exact (Ht p id Hin E).
  - intros player_id.
    destruct (delete_player_rows db player_id) as [E|(p0 & E)]; rewrite E;
      [auto|].
    split; intros p id Hin E'; simpl in Hin; apply filter_In in Hin;
      destruct Hin as [Hin _]; [exact (Ht p id Hin E')|exact (Hp p id Hin E')].
  - intros team_id.
    destruct (delete_team_rows db team_id) as [E0|E0]; rewrite E0; [auto|].
    clear E0.
    split; intros p id Hin E; simpl in Hin; apply filter_In in Hin;
      destruct Hin as [Hin Hk].
    + unfold team_exists. simpl. apply team_exists_filter.
      * exact (Ht p id Hin E).
      * intros ->. rewrite E in Hk. simpl in Hk. rewrite Z.eqb_refl in Hk.
        discriminate.
    + exact (Hp p id Hin E).
  - intros req. unfold remove_teams. destruct (is_delete_all req); simpl;
      [|auto].
    split; intros p id [].
  - destruct db as [ts ps pl]. unfold run_once. destruct ps as [|a ps];
      [|auto].
    split; intros p id Hin E.
    + exact (Ht p id Hin E).
    + exfalso. exact (Hp p id Hin E).
Qed.

Lemma handlers_keep_references_witness :
  fk_team (snd (delete_team Roster.db 1)).
Proof.
  destruct (handlers_keep_references Roster.db roster_fk_team
              roster_fk_position) as (_ & _ & _ & H & _).
  exact (proj1 (H 1)).
Defined.

(** X10. [edit_player] keeps the references valid when the team id and
    the position id of the form name stored rows. *)
Theorem edit_player_keeps_references (db : DB) (player_id : Z) (req : request) :
  fk_team db -> fk_position db ->
  (forall t n, form_get (form req) "team" = Some t -> Py.int t = Some n ->
               team_exists db n) ->
  (forall q n, form_get (form req) "position" = Some q -> Py.int q = Some n ->
               position_exists db n) ->
  fk_team (snd (edit_player db player_id req)) /\
  fk_position (snd (edit_player db player_id req)).
Proof.
  intros Ht Hp Hft Hfp.
  destruct (edit_player_rows db player_id req) as [E|(p & new & _ & Ha & E)];
    rewrite E; [auto|]. simpl.
  apply edit_player_assign_Ok in Ha.
  destruct Ha as (name & a & age & h & height & t & team & q & position &
                  _ & _ & _ & _ & _ & Hgt & Hit & Hgq & Hiq & ->).
  split; intros r id Hin Hr; simpl in Hin; apply in_map_iff in Hin;
    destruct Hin as (r0 & <- & Hin); unfold Orm.update_row in Hr;
    destruct (Orm.where_pk_version p r0); simpl in Hr.
  - destruct (Orm.TeamID_changed p _).
    + injection Hr as <-. exact (Hft t team Hgt Hit).
    + exact (Ht r0 id Hin Hr).
  - exact (Ht r0 id Hin Hr).
  - destruct (Orm.PositionID_changed p _).
    + injection Hr as <-. exact (Hfp q position Hgq Hiq).
    + exact (Hp r0 id Hin Hr).
  - exact (Hp r0 id Hin Hr).
Qed.

Lemma edit_player_keeps_references_witness :
  fk_team (snd (edit_player Roster.db 1 (Roster.submit n1_older))).
Proof.
  refine (proj1 (edit_player_keeps_references Roster.db 1
                   (Roster.submit n1_older)
                   roster_fk_team roster_fk_position _ _)).
  - intros t n Hg Hi. vm_compute in Hg. injection Hg as <-.
    vm_compute in Hi. injection Hi as <-.
    unfold team_exists. rewrite roster_db. left. reflexivity.
  - intros q n Hg Hi. vm_compute in Hg. injection Hg as <-.
    vm_compute in Hi. injection Hi as <-.
    unfold position_exists. rewrite roster_db. left. reflexivity.
Defined.

(** ** Deleting a team, again and then reporting *)

Lemma filter_twice {A : Type} (f : A -> bool) (l : list A) :
  filter f (filter f l) = filter f l.
Proof.
  apply filter_all. intros x H. apply filter_In in H. tauto.
Qed.

(** X11. [delete_team] of the same id a second time changes nothing and
    answers as the first time. *)
Theorem delete_team_idempotent (db : DB) (team_id : Z) :
  delete_team (snd (delete_team db team_id)) team_id
  = delete_team db team_id.
Proof.
  unfold delete_team. rewrite bind_one.
  destruct (Sqlite.int64 team_id); simpl; [|reflexivity].
  unfold Orm.delete_team_where_TeamID, Orm.delete_player_where_TeamID,
    set_team, set_player. simpl.
  rewrite !filter_twice. reflexivity.
Qed.

(** X12. After [delete_team] of an id within the 64 bits, a report
    filtered by that team id is empty, with the three statistics 0, whatever
    the database was and whatever the position filter is read as, as long as
    it can be bound. *)
Theorem delete_team_then_report (db : DB) (team_id : Z) (req : request)
    (pf : filter_input) :
  method req = POST ->
  reads_as (form_get (form req) "team") (Specific_id team_id) ->
  reads_as (form_get (form req) "position") pf ->
  Sqlite.int64 team_id = true -> bindable pf ->
  report (snd (delete_team db team_id)) req
  = Ok {| players := Some [];
          teams := team (snd (delete_team db team_id));
          positions := position db;
          page_stats := Some no_stats |}.
Proof.
  intros Hm Ht Hp Rt Rp.
  rewrite (report_POST _ req (Specific_id team_id) pf Hm Ht Hp Rt Rp).
  unfold delete_team. rewrite bind_one, Rt. simpl snd.
  assert (E : result_set
                (Orm.delete_team_where_TeamID
                   (Orm.delete_player_where_TeamID db team_id) team_id)
                (Specific_id team_id) pf = []).
  { unfold result_set. simpl.
    replace (filter _ (filter _ (player db))) with (@nil Player.t);
      [destruct pf; reflexivity|].
    symmetry. induction (player db) as [|a l IH]; simpl; [reflexivity|].
    destruct (Orm.opt_eqb (Player.TeamID a) (Some team_id)) eqn:Ea; simpl;
      [exact IH|]. rewrite Ea. exact IH. }
  rewrite E. reflexivity.
Qed.

Lemma delete_team_then_report_witness :
  report (snd (delete_team Roster.db 1)) (Roster.submit [("team", "1")])
  = Ok {| players := Some [];
          teams := team (snd (delete_team Roster.db 1));
          positions := position Roster.db;
          page_stats := Some no_stats |}.
Proof.
  refine (delete_team_then_report Roster.db 1 (Roster.submit [("team", "1")])
            Match_all eq_refl _ _ eq_refl I).
  - exists "1". split; reflexivity.
  - reflexivity.
Defined.

(** ** The bulk delete *)

Lemma SelectField_empty (raw : option Py.str) : Forms.SelectField [] raw = None.
Proof.
  unfold Forms.SelectField. destruct raw as [v|]; [|reflexivity].
  destruct (Py.int v); reflexivity.
Qed.

Lemma add_player_no_choice (db : DB) (req : request) :
  team db = [] \/ position db = [] ->
  add_player db req = (Render "add_player.html", db).
Proof.
  intros H. unfold add_player, Forms.PlayerForm_validate_on_submit.
  destruct (method req); [reflexivity|].
  destruct (csrf_valid req); [|reflexivity].
  destruct (Forms.StringField _); [|reflexivity].
  destruct (Forms.IntegerField _); [|reflexivity].
  destruct (Forms.FloatField _); [|reflexivity].
  destruct H as [H|H]; rewrite H; simpl; rewrite SelectField_empty.
  - reflexivity.
  - destruct (Forms.SelectField _ _); reflexivity.
Qed.

(** X13. [remove_teams] never touches the positions. Unless the request is
    a POST whose [action] is [delete_all] it only renders its page.
    Otherwise it leaves no player and no team; sent again it finds nothing
    more to delete, and until a team is added [add_player] stores nothing. *)
Theorem remove_teams_clears (db : DB) (req : request) :
  position (snd (remove_teams db req)) = position db /\
  (method req = GET \/ form_get (form req) "action" <> Some "delete_all" ->
   remove_teams db req = (Render "remove_teams.html", db)) /\
  (method req = POST -> form_get (form req) "action" = Some "delete_all" ->
   remove_teams db req
   = (Redirect remove_teams_page,
      {| team := []; position := position db; player := [] |}) /\
   remove_teams (snd (remove_teams db req)) req = remove_teams db req /\
   forall req',
     add_player (snd (remove_teams db req)) req'
     = (Render "add_player.html", snd (remove_teams db req))).
Proof.
  unfold remove_teams, is_delete_all. split; [|split].
  - destruct (method req); [reflexivity|].
    destruct (form_get (form req) "action") as [a|]; [|reflexivity].
    destruct (String.eqb a "delete_all"); reflexivity.
  - intros [->|H]; [reflexivity|].
    destruct (method req); [reflexivity|].
    destruct (form_get (form req) "action") as [a|]; [|reflexivity].
    destruct (String.eqb a "delete_all") eqn:E; [|reflexivity].
    apply String.eqb_eq in E. subst a. contradiction.
  - intros -> ->. simpl. split; [reflexivity|]. split; [reflexivity|].
    intros req'. apply add_player_no_choice. left. reflexivity.
Qed.

Lemma remove_teams_clears_witness :
  remove_teams Roster.db delete_all_request
  = (Redirect remove_teams_page,
     {| team := []; position := position Roster.db; player := [] |}) /\
  remove_teams Roster.db (Roster.submit [("action", "keep")])
  = (Render "remove_teams.html", Roster.db).
Proof.
  destruct (remove_teams_clears Roster.db delete_all_request) as (_ & _ & H).
  destruct (remove_teams_clears Roster.db (Roster.submit [("action", "keep")]))
    as (_ & H' & _).
  split.
  - exact (proj1 (H eq_refl eq_refl)).
  - apply H'. right. discriminate.
Defined.

(** ** What the two forms refuse *)

(** X14. [add_player] stores nothing and renders its form again when the
    request is a GET, the CSRF token is bad, the name is missing or empty,
    the age or the height is not sent or not accepted by [int()] or
    [float()], or the team or the position is not sent, not a number or not
    the id of a stored row; so it does whenever there is no team or no
    position. [add_team] does the same on a GET, a bad token and a missing
    or empty name. *)
Theorem forms_refuse (db : DB) (req : request) :
  (method req = GET \/ csrf_valid req = false \/
   form_get (form req) "name" = None \/ form_get (form req) "name" = Some "" \/
   (forall a, form_get (form req) "age" = Some a -> Py.int a = None) \/
   (forall h, form_get (form req) "height" = Some h ->
              Py.float_of_str h = None) \/
   (forall t n, form_get (form req) "team" = Some t -> Py.int t = Some n ->
                ~ team_exists db n) \/
   (forall q n, form_get (form req) "position" = Some q -> Py.int q = Some n ->
                ~ position_exists db n) \/
   team db = [] \/ position db = [] ->
   add_player db req = (Render "add_player.html", db)) /\
  (method req = GET \/ csrf_valid req = false \/
   form_get (form req) "team_name" = None \/
   form_get (form req) "team_name" = Some "" ->
   add_team db req = (Render "add_team.html", db)).
Proof.
  split.
  - intros H. unfold add_player.
    destruct (Forms.PlayerForm_validate_on_submit _ _ _) as [f|] eqn:Hv;
      [exfalso|reflexivity].
    apply PlayerForm_valid in Hv.
    destruct Hv as (Hm & Hc & Hn & Hne & (a & Ha1 & Ha2) & (h & Hh1 & Hh2) &
                    (t & Ht1 & Ht2) & (q & Hq1 & Hq2) & Hti & Hqi).
    rewrite map_map in Hti, Hqi. simpl in Hti, Hqi.
    destruct H as [H|[H|[H|[H|[H|[H|[H|[H|[H|H]]]]]]]]].
    + congruence.
    + congruence.
    + congruence.
    + rewrite Hn in H. injection H as H. contradiction.
    + specialize (H a Ha1). congruence.
    + specialize (H h Hh1). congruence.
    + exact (H t _ Ht1 Ht2 Hti).
    + exact (H q _ Hq1 Hq2 Hqi).
    + rewrite H in Hti. exact Hti.
    + rewrite H in Hqi. exact Hqi.
  - intros H. unfold add_team, Forms.TeamForm_validate_on_submit.
    destruct H as [->|[H|[H|H]]]; [reflexivity| | |];
      destruct (method req); try reflexivity; rewrite H;
      try reflexivity; destruct (csrf_valid req); reflexivity.
Qed.

Lemma forms_refuse_witness :
  add_player Roster.db
    (Roster.submit [("name", "n3"); ("age", "19"); ("height", "71.5");
                    ("team", "2"); ("position", "1")])
  = (Render "add_player.html", Roster.db) /\
  add_team Roster.db (Roster.submit [("team_name", "")])
  = (Render "add_team.html", Roster.db).
Proof.
  split.
  - apply (proj1 (forms_refuse Roster.db _)).
    do 6 right. left. intros t n Ht Hn.
    vm_compute in Ht. injection Ht as <-.
    vm_compute in Hn. injection Hn as <-.
    unfold team_exists. rewrite roster_db. simpl.
    intros [H|[]]. discriminate H.
  - apply (proj2 (forms_refuse Roster.db _)). do 3 right. reflexivity.
Defined.

(** ** Literals [edit_player] cannot convert *)

(** X15. When the five fields are all sent for a stored player and [int()]
    rejects the age, the team or the position, or [float()] rejects the
    height, [edit_player] answers with the flashed [ValueError] and the
    database is what it was. *)
Theorem edit_player_bad_literal (db : DB) (player_id : Z) (req : request)
    (p : Player.t) (name a h t q : Py.str) :
  method req = POST ->
  Orm.get db player_id = Some p ->
  form_get (form req) "name" = Some name ->
  form_get (form req) "age" = Some a ->
  form_get (form req) "height" = Some h ->
  form_get (form req) "team" = Some t ->
  form_get (form req) "position" = Some q ->
  Py.int a = None \/ Py.float_of_str h = None \/
  Py.int t = None \/ Py.int q = None ->
  edit_player db player_id req
  = (Flash_redirect ValueError (edit_player_page player_id), db).
Proof.
  intros Hm Hg Hn Ha Hh Ht Hq H. unfold edit_player.
  rewrite (get_or_404_Some _ _ _ Hg), Hm.
  unfold edit_player_POST, edit_player_assign, form_getitem.
  rewrite Hn, Ha, Hh, Ht, Hq. simpl.
  destruct (Py.int a); simpl; [|reflexivity].
  destruct (Py.float_of_str h); simpl; [|reflexivity].
  destruct (Py.int t); simpl; [|reflexivity].
  destruct (Py.int q); simpl; [|reflexivity].
  exfalso. destruct H as [H|[H|[H|H]]]; discriminate H.
Qed.

Lemma edit_player_bad_literal_witness :
  edit_player Roster.db 1
    (Roster.submit [("name", "n1"); ("age", "20"); ("height", "70.0");
                    ("team", "A"); ("position", "1")])
  = (Flash_redirect ValueError (edit_player_page 1), Roster.db).
Proof.
  refine (edit_player_bad_literal Roster.db 1
            (Roster.submit [("name", "n1"); ("age", "20"); ("height", "70.0");
                            ("team", "A"); ("position", "1")])
            Roster.n1 "n1" "20" "70.0" "A" "1" eq_refl _ eq_refl eq_refl
            eq_refl eq_refl eq_refl _).
  - vm_compute. reflexivity.
  - right. right. left. reflexivity.
Defined.

(** ** Sending the same edit again *)

Lemma feqb_refl (x : Py.float) : x <> S754_nan -> Py.feqb x x = true.
Proof.
  unfold Py.feqb, SFeqb. destruct x as [s|s| |s m e]; simpl; intros H.
  - reflexivity.
  - destruct s; reflexivity.
  - contradiction.
  - rewrite Z.compare_refl, Pos.compare_cont_refl. destruct s; reflexivity.
Qed.

(** A float equals, by [==], what the engine reads back for it. *)
Lemma feqb_real (x : Py.float) :
  x <> S754_nan -> Py.feqb x (Sqlite.real x) = true.
Proof.
  intros H. destruct x as [s|s| |s m e]; try (apply feqb_refl; exact H).
  reflexivity.
Qed.

(** X16. When [edit_player] has succeeded and the height sent is not NaN,
    the same request sent again succeeds and changes nothing: the stored
    row already equals the form, so no UPDATE is sent and the version stays. *)
Theorem edit_player_resubmit (db : DB) (player_id : Z) (req : request)
    (db1 : DB) :
  edit_player db player_id req = (Redirect index, db1) ->
  (forall h, form_get (form req) "height" = Some h ->
             Py.float_of_str h <> Some S754_nan) ->
  edit_player db1 player_id req = (Redirect index, db1).
Proof.
  intros H Hnan. unfold edit_player in H.
  destruct (Orm.get_or_404 db player_id) as [[p|]|e0] eqn:Hg;
    [|discriminate|discriminate].
  apply get_or_404_inv in Hg.
  destruct (method req) eqn:Hm; [discriminate|].
  unfold edit_player_POST in H.
  destruct (edit_player_assign p (form req)) as [new|e] eqn:Ha; simpl in H;
    [|discriminate].
  destruct (Orm.commit_update p new db) as [d|e] eqn:Hc; [|discriminate].
  injection H as <-. pose proof (commit_update_Ok _ _ _ _ Hc) as Hd.
  destruct (Orm.modified p new) eqn:Hmod; subst d.
  - assert (Hg1 : Orm.get (set_player db
                               (map (Orm.update_row p new) (player db)))
                     player_id
                   = Some (Orm.set_columns p new p)).
    { unfold Orm.get. simpl player.
      rewrite (find_update_row p new (player db) player_id p Hg).
      unfold Orm.update_row. rewrite where_pk_version_refl. reflexivity. }
    unfold edit_player. rewrite (get_or_404_Some _ _ _ Hg1), Hm.
    unfold edit_player_POST.
    apply edit_player_assign_Ok in Ha.
    destruct Ha as (name & a & age & h & height & t & team & q & position &
                    H1 & H2 & Hia & H3 & Hih & H4 & Hit & H5 & Hiq & ->).
    set (new := Player.Build_t _ _ _ _ _ _ _) in *.
    set (p1 := Orm.set_columns p new p).
    set (new1 := {| Player.PlayerID := Player.PlayerID p1;
                    Player.Name := name; Player.Age := age;
                    Player.Height := height;
                    Player.TeamID := Some team;
                    Player.PositionID := Some position;
                    Player.Version := Player.Version p1 |}).
    assert (Ha1 : edit_player_assign p1 (form req) = Ok new1).
    { apply edit_player_assign_Ok.
      exists name, a, age, h, height, t, team, q, position.
      repeat split; assumption. }
    rewrite Ha1. simpl bind.
    assert (Hheight : height <> S754_nan).
    { intros E. apply (Hnan h H3). rewrite Hih, E. reflexivity. }
    assert (N : Player.Name p1 = name).
    { unfold p1, Orm.set_columns, Orm.Name_changed. simpl.
      destruct (String.eqb name (Player.Name p)) eqn:E; simpl; [|reflexivity].
      apply String.eqb_eq in E. congruence. }
    assert (A : Player.Age p1 = age).
    { unfold p1, Orm.set_columns, Orm.Age_changed. simpl.
      destruct (age =? Player.Age p) eqn:E; simpl; [|reflexivity].
      apply Z.eqb_eq in E. congruence. }
    assert (F : Py.feqb height (Player.Height p1) = true).
    { unfold p1, Orm.set_columns, Orm.Height_changed. simpl.
      destruct (Py.feqb height (Player.Height p)) eqn:E; simpl;
        [exact E|apply feqb_real; exact Hheight]. }
    assert (T : Player.TeamID p1 = Some team).
    { unfold p1, Orm.set_columns, Orm.TeamID_changed.
      change (Player.TeamID new) with (Some team). cbn [Player.TeamID].
      destruct (Orm.opt_eqb (Some team) (Player.TeamID p)) eqn:E;
        cbn [negb]; [|reflexivity].
      apply opt_eqb_eq in E. congruence. }
    assert (P : Player.PositionID p1 = Some position).
    { unfold p1, Orm.set_columns, Orm.PositionID_changed.
      change (Player.PositionID new) with (Some position).
      cbn [Player.PositionID].
      destruct (Orm.opt_eqb (Some position) (Player.PositionID p)) eqn:E;
        cbn [negb]; [|reflexivity].
      apply opt_eqb_eq in E. congruence. }
    assert (Hsame : Orm.modified p1 new1 = false).
    { unfold Orm.modified, Orm.Name_changed, Orm.Age_changed,
        Orm.Height_changed, Orm.TeamID_changed, Orm.PositionID_changed.
      change (Player.Name new1) with name.
      change (Player.Age new1) with age.
      change (Player.Height new1) with height.
      change (Player.TeamID new1) with (Some team).
      change (Player.PositionID new1) with (Some position).
      rewrite N, A, F, T, P, String.eqb_refl, Z.eqb_refl.
      rewrite !(proj2 (opt_eqb_eq _ _) eq_refl). reflexivity. }
    unfold Orm.commit_update. rewrite Hsame. reflexivity.
  - unfold edit_player. rewrite (get_or_404_Some _ _ _ Hg), Hm.
    unfold edit_player_POST.
    rewrite Ha. simpl. unfold Orm.commit_update. rewrite Hmod. reflexivity.
Qed.

Lemma edit_player_resubmit_witness :
  edit_player roster_n1_older 1 (Roster.submit n1_older)
  = (Redirect index, roster_n1_older).
Proof.
  refine (edit_player_resubmit Roster.db 1 (Roster.submit n1_older)
            roster_n1_older _ _).
  - vm_compute. reflexivity.
  - intros h Hh. vm_compute in Hh. injection Hh as <-.
    vm_compute. discriminate.
Defined.
